(** * qarbon: exception plugin chain and error formatter lookup

    A shallow embedding of [qarbon/exceptionplugin.py] and of the formatter
    part of [qarbon/qt/gui/exceptionwidget.py].

    Python objects that the code only passes around are kept abstract
    enough to be executable: a class is its identifier, an exception value
    is its [args] tuple, the process state ([world]) holds the heap of dict
    objects, the [MSG_BOX] class attribute, the Qt application flag, the
    in-flight exception of [sys.exc_info()] and the list of externally
    visible actions.  Everything that can raise returns an [outcome]. *)

From Stdlib Require Import String List ZArith Bool Lia.
Import ListNotations.
Local Open Scope string_scope.

(* ------------------------------------------------------------------------ *)
(** ** Python values, truthiness, exceptions *)

(** What a [handle] or any other callable hooked in a chain can return. *)
Inductive value : Type :=
| VNone
| VBool (b : bool)
| VInt (n : Z)
| VStr (s : string).

(** [if result], [if not ret]: Python truth value testing. *)
Definition truthy (v : value) : bool :=
  match v with
  | VNone => false
  | VBool b => b
  | VInt n => negb (Z.eqb n 0)
  | VStr s => negb (String.eqb s EmptyString)
  end.

Inductive pyerror : Type :=
| TypeError
| AttributeError
| IndexError
| OtherError (name : string).

Inductive outcome (A : Type) : Type :=
| Return (a : A)
| Raise (e : pyerror).
Arguments Return {A} a.
Arguments Raise {A} e.

(** Exceptions in pure code (the formatter methods). *)
Definition obind {A B} (c : outcome A) (k : A -> outcome B) : outcome B :=
  match c with
  | Return a => k a
  | Raise e => Raise e
  end.

(* ------------------------------------------------------------------------ *)
(** ** Error triples *)

(** A class object, identified by its name ([__name__]). *)
Definition cls := string.

(** Members of an exception's [args]; a [PyTango.DevError] has the three
    attributes the Tango formatter reads. *)
Inductive pyobj : Type :=
| OStr (s : string)
| OInt (n : Z)
| ODevError (origin reason desc : string).

Record exception : Type := mkException { args : list pyobj }.

Record frame : Type := mkFrame
  { f_filename : string; f_lineno : Z; f_name : string }.
Definition traceback := list frame.

(** [exc_info]: the triple of [sys.exc_info()]; each part may be [None]. *)
Record exc_info : Type := mkExcInfo
  { err_type : option cls;
    err_value : option exception;
    err_traceback : option traceback }.

Definition no_exc_info : exc_info := mkExcInfo None None None.

(** [a or b] on objects that are truthy whenever they are not [None]
    (classes, exception instances, tracebacks). *)
Definition por {A} (a b : option A) : option A :=
  match a with
  | Some _ => a
  | None => b
  end.

(* ------------------------------------------------------------------------ *)
(** ** Dict objects

    A dict is kept as the list of its entries, one for each key, in the
    order in which the keys came in.  That order is bookkeeping only: the
    order in which [items()] goes through a dict is the hash order of the
    interpreter, of which the code can assume nothing; see
    [iteration_order]. *)

Definition dict (V : Type) := list (cls * V).

Fixpoint dict_setitem {V} (d : dict V) (k : cls) (v : V) : dict V :=
  match d with
  | [] => [(k, v)]
  | (k', v') :: d' =>
      if String.eqb k' k then (k', v) :: d'
      else (k', v') :: dict_setitem d' k v
  end.

(** The order of iteration.  [rank keys k] is the place the interpreter
    gives to the key [k] in a dict that got the keys [keys], in that order;
    the entries are gone through by rising rank. *)
Fixpoint insert_ranked {V} (rank : cls -> nat) (x : cls * V) (l : dict V)
  : dict V :=
  match l with
  | [] => [x]
  | y :: l' =>
      if Nat.leb (rank (fst x)) (rank (fst y)) then x :: l
      else y :: insert_ranked rank x l'
  end.

Fixpoint sort_ranked {V} (rank : cls -> nat) (l : dict V) : dict V :=
  match l with
  | [] => []
  | x :: l' => insert_ranked rank x (sort_ranked rank l')
  end.

Definition iteration_order {V} (rank : list cls -> cls -> nat) (d : dict V)
  : dict V :=
  sort_ranked (rank (map fst d)) d.

(* ------------------------------------------------------------------------ *)
(** ** Formatter classes *)

(** A formatter class is what its four field producers do.  Each takes the
    error triple and returns a string or raises. *)
Record formatter_class : Type := mkFormatter
  { fmt_name : string;
    toTitle : exc_info -> outcome string;
    toErrorHtml : exc_info -> outcome string;
    toDetailedErrorHtml : exc_info -> outcome string;
    toOriginHtml : exc_info -> outcome string }.

(** [BaseErrorFormatterPlugin.translateError], inherited by every
    formatter: the tuple's members are evaluated left to right. *)
Definition translateError (self : formatter_class) (ei : exc_info)
  : outcome (string * string * string * string) :=
  obind (toTitle self ei) (fun title =>
  obind (toErrorHtml self ei) (fun error =>
  obind (toDetailedErrorHtml self ei) (fun detailed_error =>
  obind (toOriginHtml self ei) (fun origin =>
  Return (title, error, detailed_error, origin))))).

(* ------------------------------------------------------------------------ *)
(** ** Process state *)

Inductive CheckState : Type := Unchecked | PartiallyChecked | Checked.

Definition CheckState_eqb (a b : CheckState) : bool :=
  match a, b with
  | Unchecked, Unchecked | PartiallyChecked, PartiallyChecked
  | Checked, Checked => true
  | _, _ => false
  end.

(** An [ErrorDialog] with its [ErrorWidget] panel. *)
Record dialog : Type := mkDialog
  { dlg_exc_info : exc_info;
    windowTitle : string;
    panelTitle : string;
    text : string;
    detailedHtml : string;
    originHtml : string;
    checkBoxState : CheckState;
    modal : bool;
    visible : bool }.

(** Externally visible actions, most recent first. *)
Inductive event : Type :=
| EvExcepthook (ei : exc_info)                     (* sys.__excepthook__ *)
| EvLog (name : option string) (level : Z) (ei : exc_info)
| EvShow (title body : string)                      (* msgbox.show() *)
| EvCalled (tag : string).                          (* a user callable ran *)

Record world : Type := mkWorld
  { heap : list (dict formatter_class);   (* dict objects, by address *)
    sys_exc_info : exc_info;              (* the exception being handled *)
    qapp : bool;                          (* QApplication.instance() exists *)
    MSG_BOX : option dialog;              (* the plugin class attribute *)
    events : list event }.

Definition set_heap (w : world) (h : list (dict formatter_class)) : world :=
  mkWorld h (sys_exc_info w) (qapp w) (MSG_BOX w) (events w).
Definition set_qapp (w : world) (b : bool) : world :=
  mkWorld (heap w) (sys_exc_info w) b (MSG_BOX w) (events w).
Definition set_MSG_BOX (w : world) (b : option dialog) : world :=
  mkWorld (heap w) (sys_exc_info w) (qapp w) b (events w).
Definition emit (e : event) (w : world) : world :=
  mkWorld (heap w) (sys_exc_info w) (qapp w) (MSG_BOX w) (e :: events w).

(** Stateful code: the state survives a raised exception. *)
Definition M (A : Type) : Type := world -> outcome A * world.

Definition ret {A} (a : A) : M A := fun w => (Return a, w).
Definition throw {A} (e : pyerror) : M A := fun w => (Raise e, w).
Definition bind {A B} (c : M A) (k : A -> M B) : M B :=
  fun w =>
    match c w with
    | (Return a, w') => k a w'
    | (Raise e, w') => (Raise e, w')
    end.
Definition lift {A} (c : outcome A) : M A := fun w => (c, w).

Declare Scope py_scope.
Delimit Scope py_scope with py.
Notation "x <- c ;; k" := (bind c (fun x => k))
  (at level 61, c at next level, right associativity) : py_scope.
Notation "c ;;; k" := (bind c (fun _ => k))
  (at level 61, right associativity) : py_scope.

(** Dict objects live in the heap and are used through their address. *)
Definition ref := nat.

Definition new_dict : M ref :=
  fun w => (Return (length (heap w)), set_heap w (heap w ++ [[]])).

Fixpoint list_update {A} (l : list A) (i : nat) (f : A -> A) : list A :=
  match l, i with
  | [], _ => []
  | x :: l', O => f x :: l'
  | x :: l', S i' => x :: list_update l' i' f
  end.

(** [d[k] = v] *)
Definition setitem (r : ref) (k : cls) (v : formatter_class) : M unit :=
  fun w =>
    (Return tt, set_heap w (list_update (heap w) r (fun d => dict_setitem d k v))).

(** [d.items()], in the interpreter's order of iteration. *)
Definition items (rank : list cls -> cls -> nat) (r : ref)
  : M (dict formatter_class) :=
  fun w => (Return (iteration_order rank (nth r (heap w) [])), w).

(* ------------------------------------------------------------------------ *)
(** ** What the code takes from outside the repository *)

(** [pygments], when its import succeeded: [HtmlFormatter().get_style_defs()]
    and [highlight(code, PythonTracebackLexer(), formatter)]. *)
Record pygments_api : Type := mkPygments
  { get_style_defs : string;
    highlight : string -> string }.

Record runtime : Type := mkRuntime
  { mro : cls -> list cls;                 (* [C.__mro__], [C] first *)
    PyTango : bool;                        (* [import PyTango] succeeds *)
    pygments : option pygments_api;        (* [None] after ImportError *)
    dict_rank : list cls -> cls -> nat;    (* the hash order of dicts *)
    format_exception_only :                (* traceback module *)
      option cls -> option exception -> list string;
    format_exception :
      option cls -> option exception -> option traceback -> list string;
    ui_windowTitle : string;               (* errorpanel.ui *)
    ui_text : string }.

(** [issubclass(err_type, exc)]: the first argument has to be a class. *)
Definition issubclass (rt : runtime) (c : option cls) (e : cls) : outcome bool :=
  match c with
  | None => Raise TypeError
  | Some c => Return (existsb (String.eqb e) (mro rt c))
  end.

Definition join (l : list string) : string := String.concat EmptyString l.

Definition dquote : string := String (Ascii.ascii_of_nat 34) EmptyString.

(** ['<html><head><style type="text/css">{style}</style></head><body>'.format(style=style)] *)
Definition html_orig (style : string) : string :=
  "<html><head><style type=" ++ dquote ++ "text/css" ++ dquote ++ ">"
  ++ style ++ "</style></head><body>".

(* ------------------------------------------------------------------------ *)
(** ** BaseErrorFormatterPlugin *)

Definition Base_toTitle (ei : exc_info) : outcome string :=
  match err_type ei with
  | None => Return "Unhandled Error"
  | Some t => Return ("Unhandled Error (" ++ t ++ ")")
  end.

Definition Base_toErrorHtml (rt : runtime) (ei : exc_info) : outcome string :=
  Return (join (format_exception_only rt (err_type ei) (err_value ei))).

(** [self.toErrorHtml] is looked up on the instance, so the method is
    taken as an argument. *)
Definition Base_toDetailedErrorHtml
    (self_toErrorHtml : exc_info -> outcome string) (ei : exc_info)
  : outcome string :=
  obind (self_toErrorHtml ei) (fun error =>
  Return ("<html><body><pre>" ++ error ++ "</pre></body></html>")).

Definition Base_toOriginHtml (rt : runtime) (ei : exc_info) : outcome string :=
  let exc_info :=
    join (format_exception rt (err_type ei) (err_value ei) (err_traceback ei)) in
  let style :=
    match pygments rt with
    | Some pg => get_style_defs pg
    | None => EmptyString
    end in
  let html := html_orig style in
  let html :=
    match pygments rt with
    | None => html ++ "<pre>" ++ exc_info ++ "</pre>"
    | Some pg => html ++ highlight pg exc_info
    end in
  Return (html ++ "</body></html>").

Definition BaseErrorFormatterPlugin (rt : runtime) : formatter_class :=
  {| fmt_name := "BaseErrorFormatterPlugin";
     toTitle := Base_toTitle;
     toErrorHtml := Base_toErrorHtml rt;
     toDetailedErrorHtml := Base_toDetailedErrorHtml (Base_toErrorHtml rt);
     toOriginHtml := Base_toOriginHtml rt |}.

(* ------------------------------------------------------------------------ *)
(** ** TangoErrorFormatterPlugin *)

Definition Tango_toTitle (ei : exc_info) : outcome string :=
  Return "Tango Error".

(** [err_value.args[0].desc] *)
Definition Tango_toErrorHtml (ei : exc_info) : outcome string :=
  match err_value ei with
  | None => Raise AttributeError
  | Some v =>
      match args v with
      | [] => Raise IndexError
      | ODevError _ _ desc :: _ => Return desc
      | _ :: _ => Raise AttributeError
      end
  end.

(** The loop body of [toDetailedErrorHtml] over [err_value.args]. *)
Fixpoint Tango_detail_loop (rt : runtime) (des : list pyobj) (html : string)
  : outcome string :=
  match des with
  | [] => Return html
  | ODevError origin reason desc :: des' =>
      let origin :=
        match pygments rt with
        | Some pg =>
            if String.prefix "PyDs_" reason then highlight pg origin
            else "<pre>" ++ origin ++ "</pre>"
        | None => "<pre>" ++ origin ++ "</pre>"
        end in
      Tango_detail_loop rt des'
        (html ++ "<pre>" ++ reason ++ ": " ++ desc ++ "</pre>" ++ origin ++ "<hr>")
  | _ :: _ => Raise AttributeError
  end.

Definition Tango_toDetailedErrorHtml (rt : runtime) (ei : exc_info)
  : outcome string :=
  let style :=
    match pygments rt with
    | Some pg => get_style_defs pg
    | None => EmptyString
    end in
  let html := html_orig style in
  match err_value ei with
  | None => Raise AttributeError
  | Some v =>
      obind (Tango_detail_loop rt (args v) html) (fun html =>
      Return (html ++ "</body></html>"))
  end.

Definition Tango_toOriginHtml (rt : runtime) (ei : exc_info) : outcome string :=
  let exc_info :=
    join (format_exception rt (err_type ei) (err_value ei) (err_traceback ei)) in
  let style :=
    match pygments rt with
    | Some pg => get_style_defs pg
    | None => EmptyString
    end in
  let html := html_orig style in
  let html :=
    match pygments rt with
    | None => html ++ "<pre>" ++ exc_info ++ "</pre>"
    | Some pg => html ++ highlight pg exc_info
    end in
  Return (html ++ "</body></html>").

Definition TangoErrorFormatterPlugin (rt : runtime) : formatter_class :=
  {| fmt_name := "TangoErrorFormatterPlugin";
     toTitle := Tango_toTitle;
     toErrorHtml := Tango_toErrorHtml;
     toDetailedErrorHtml := Tango_toDetailedErrorHtml rt;
     toOriginHtml := Tango_toOriginHtml rt |}.

(** The formatter variants the module defines. *)
Definition formatter_variants (rt : runtime) : list formatter_class :=
  [BaseErrorFormatterPlugin rt; TangoErrorFormatterPlugin rt].

(* ------------------------------------------------------------------------ *)
(** ** ErrorWidget: the formatter registry *)

Local Open Scope py_scope.

(** [PyTango.DevFailed] *)
Definition DevFailed : cls := "DevFailed".

(** A widget class, as far as the class methods below use it:
    [klass.getErrorFormatters()] is looked up on the class, so a subclass
    may answer with a dict of its own. *)
Record widget_class : Type := mkWidgetClass
  { getErrorFormatters : M ref }.

(** [ErrorWidget.getErrorFormatters]: a dict built anew by every call. *)
Definition ErrorWidget_getErrorFormatters (rt : runtime) : M ref :=
  result <- new_dict ;;
  (if PyTango rt
   then setitem result DevFailed (TangoErrorFormatterPlugin rt)
   else ret tt) ;;;
  ret result.

Definition ErrorWidget (rt : runtime) : widget_class :=
  {| getErrorFormatters := ErrorWidget_getErrorFormatters rt |}.

(** [klass.getErrorFormatters()[err_type] = err_handler] *)
Definition registerErrorHandler (klass : widget_class)
    (err_type : cls) (err_handler : formatter_class) : M unit :=
  d <- getErrorFormatters klass ;;
  setitem d err_type err_handler.

(** The [for exc, h_klass in ....items()] loop of [findErrorFormatter]. *)
Fixpoint find_in_items (rt : runtime) (err_type : option cls)
    (its : dict formatter_class) : outcome formatter_class :=
  match its with
  | [] => Return (BaseErrorFormatterPlugin rt)
  | (exc, h_klass) :: its' =>
      obind (issubclass rt err_type exc) (fun b =>
      if b then Return h_klass else find_in_items rt err_type its')
  end.

Definition findErrorFormatter (rt : runtime) (klass : widget_class)
    (err_type : option cls) : M formatter_class :=
  d <- getErrorFormatters klass ;;
  its <- items (dict_rank rt) d ;;
  lift (find_in_items rt err_type its).

(* ------------------------------------------------------------------------ *)
(** ** ErrorWidget and ErrorDialog, as far as the dialog plugin drives them *)

Definition set_error_fields (self : dialog) (ei : exc_info) : dialog :=
  mkDialog ei (windowTitle self) (panelTitle self) (text self)
    (detailedHtml self) (originHtml self) (checkBoxState self)
    (modal self) (visible self).

Definition set_rendered (self : dialog)
    (title error detailed_error origin : string) : dialog :=
  mkDialog (dlg_exc_info self) (windowTitle self) title error
    detailed_error origin (checkBoxState self) (modal self) (visible self).

Definition setWindowTitle (self : dialog) (title : string) : dialog :=
  mkDialog (dlg_exc_info self) title (panelTitle self) (text self)
    (detailedHtml self) (originHtml self) (checkBoxState self)
    (modal self) (visible self).

Definition setText (self : dialog) (msg : string) : dialog :=
  mkDialog (dlg_exc_info self) (windowTitle self) (panelTitle self) msg
    (detailedHtml self) (originHtml self) (checkBoxState self)
    (modal self) (visible self).

Definition setModal (self : dialog) (b : bool) : dialog :=
  mkDialog (dlg_exc_info self) (windowTitle self) (panelTitle self) (text self)
    (detailedHtml self) (originHtml self) (checkBoxState self) b (visible self).

Definition setCheckBoxState (self : dialog) (s : CheckState) : dialog :=
  mkDialog (dlg_exc_info self) (windowTitle self) (panelTitle self) (text self)
    (detailedHtml self) (originHtml self) s (modal self) (visible self).

Definition setVisible (self : dialog) (b : bool) : dialog :=
  mkDialog (dlg_exc_info self) (windowTitle self) (panelTitle self) (text self)
    (detailedHtml self) (originHtml self) (checkBoxState self) (modal self) b.

(** [ErrorWidget.setError].  The widget is mutated in place, so the widget
    as the call leaves it is returned also when the call raises. *)
Definition ErrorWidget_setError (rt : runtime) (self : dialog) (a : exc_info)
    (w : world) : outcome unit * dialog * world :=
  let i := sys_exc_info w in
  let ei := mkExcInfo (por (err_type a) (err_type i))
                      (por (err_value a) (err_value i))
                      (por (err_traceback a) (err_traceback i)) in
  let self := set_error_fields self ei in
  match findErrorFormatter rt (ErrorWidget rt) (err_type ei) w with
  | (Raise e, w') => (Raise e, self, w')
  | (Return formatter_klass, w') =>
      match translateError formatter_klass ei with
      | Raise e => (Raise e, self, w')
      | Return (title, error, detailed_error, origin) =>
          (Return tt, set_rendered self title error detailed_error origin, w')
      end
  end.

(** [ErrorDialog.setError] *)
Definition ErrorDialog_setError (rt : runtime) (self : dialog) (a : exc_info)
    (w : world) : outcome unit * dialog * world :=
  match ErrorWidget_setError rt self a w with
  | (Raise e, self', w') => (Raise e, self', w')
  | (Return _, self', w') =>
      (Return tt, setWindowTitle self' (panelTitle self'), w')
  end.

Definition all_None (a : exc_info) : bool :=
  match err_type a, err_value a, err_traceback a with
  | None, None, None => true
  | _, _, _ => false
  end.

(** [ErrorDialog(err_type, err_value, err_traceback)], with the
    [ErrorWidget] it builds.  The text edits of [errorpanel.ui] start
    empty; the check box is hidden and unchecked. *)
Definition new_ErrorDialog (rt : runtime) (a : exc_info) : M dialog :=
  fun w =>
    let a := if all_None a then sys_exc_info w else a in
    let panel :=
      mkDialog a EmptyString (ui_windowTitle rt) (ui_text rt)
        EmptyString EmptyString Unchecked false false in
    match err_value a with
    | Some _ =>
        match ErrorWidget_setError rt panel a w with
        | (Raise e, _, w') => (Raise e, w')
        | (Return _, panel', w') =>
            (Return (setWindowTitle panel' (panelTitle panel')), w')
        end
    | None => (Return (setWindowTitle panel (panelTitle panel)), w)
    end.

(** [Application()], with [argv=None]: the running [QApplication], made
    when there is none yet. *)
Definition Application : M (option unit) :=
  fun w => (Return (Some tt), set_qapp w true).

(** [_getMessageBox]: the one dialog kept in the class attribute
    [MSG_BOX]; [None] when its check box is checked. *)
Definition _getMessageBox (rt : runtime) (a : exc_info) : M (option dialog) :=
  box <- (fun w =>
    match MSG_BOX w with
    | None =>
        match new_ErrorDialog rt a w with
        | (Raise e, w') => (Raise e, w')
        | (Return box, w') =>
            let box := setModal box false in
            (Return box, set_MSG_BOX w' (Some box))
        end
    | Some box =>
        match ErrorDialog_setError rt box a w with
        | (Raise e, box', w') => (Raise e, set_MSG_BOX w' (Some box'))
        | (Return _, box', w') => (Return box', set_MSG_BOX w' (Some box'))
        end
    end) ;;
  if CheckState_eqb (checkBoxState box) Checked then ret None
  else ret (Some box).

(** [msgbox.show()], after the optional title and text, on the shared box. *)
Definition show_box (title msg : option string) (box : dialog) : M unit :=
  fun w =>
    let box := match title with Some t => setWindowTitle box t | None => box end in
    let box := match msg with Some m => setText box m | None => box end in
    let box := setVisible box true in
    (Return tt,
     emit (EvShow (windowTitle box) (text box)) (set_MSG_BOX w (Some box))).

(** [__MessageDialogExceptionPlugin.handle] *)
Definition MessageDialog_handle (rt : runtime) (title msg : option string)
    (a : exc_info) : M value :=
  app <- Application ;;
  match app with
  | None => ret VNone
  | Some _ =>
      msgbox <- _getMessageBox rt a ;;
      match msgbox with
      | None => ret VNone
      | Some box =>
          show_box title msg box ;;;
          ret (VBool true)
      end
  end.

(* ------------------------------------------------------------------------ *)
(** ** exceptionplugin.py *)

(** [logging.CRITICAL] *)
Definition CRITICAL : Z := 50.

(** The plugin classes.  [UserExceptionPlugin] stands for a subclass whose
    [handle] is overwritten, and with no target for any other callable an
    excepthook can be chained to. *)
#[warnings="-register-all"]
Inductive plugin : Type :=
| BaseExceptionPlugin (target : option plugin)
| MultiplexExceptionPlugin (elements : list plugin) (target : option plugin)
| LogExceptionPlugin (target : option plugin) (name : option string) (level : Z)
| MessageDialogExceptionPlugin (target : option plugin) (title msg : option string)
| UserExceptionPlugin (handle : exc_info -> M value) (target : option plugin).

(** [self._target] *)
Definition _target (p : plugin) : option plugin :=
  match p with
  | BaseExceptionPlugin t
  | MultiplexExceptionPlugin _ t
  | LogExceptionPlugin t _ _
  | MessageDialogExceptionPlugin t _ _
  | UserExceptionPlugin _ t => t
  end.

(** [BaseExceptionPlugin.handle] *)
Definition Base_handle (a : exc_info) : M value :=
  fun w => (Return (VBool true), emit (EvExcepthook a) w).

(** [LogExceptionPlugin.handle] *)
Definition Log_handle (name : option string) (level : Z) (a : exc_info) : M value :=
  fun w => (Return (VBool true), emit (EvLog name level a) w).

(** The loop of [MultiplexExceptionPlugin.handle], over the way a child is
    called. *)
Fixpoint Multiplex_loop (call : plugin -> exc_info -> M value)
    (targets : list plugin) (a : exc_info) : M value :=
  match targets with
  | [] => ret (VBool true)
  | target :: rest =>
      ret_ <- call target a ;;
      if negb (truthy ret_) then ret (VBool false)
      else Multiplex_loop call rest a
  end.

(** [BaseExceptionPlugin.__call__], with [handle] dispatched on the class
    of [self]. *)
Fixpoint call (rt : runtime) (self : plugin) (a : exc_info) {struct self}
  : M value :=
  result <-
    match self with
    | BaseExceptionPlugin _ => Base_handle a
    | MultiplexExceptionPlugin elements _ =>
        (fix loop (targets : list plugin) : M value :=
           match targets with
           | [] => ret (VBool true)
           | target :: rest =>
               ret_ <- call rt target a ;;
               if negb (truthy ret_) then ret (VBool false)
               else loop rest
           end) elements
    | LogExceptionPlugin _ name level => Log_handle name level a
    | MessageDialogExceptionPlugin _ title msg =>
        MessageDialog_handle rt title msg a
    | UserExceptionPlugin handle _ => handle a
    end ;;
  match truthy result,
        match self with
        | BaseExceptionPlugin t
        | MultiplexExceptionPlugin _ t
        | LogExceptionPlugin t _ _
        | MessageDialogExceptionPlugin t _ _
        | UserExceptionPlugin _ t => t
        end
  with
  | true, Some target => call rt target a
  | _, _ => ret result
  end.

(** [self.handle], on the triple. *)
Definition handle (rt : runtime) (self : plugin) (a : exc_info) : M value :=
  match self with
  | BaseExceptionPlugin _ => Base_handle a
  | MultiplexExceptionPlugin elements _ => Multiplex_loop (call rt) elements a
  | LogExceptionPlugin _ name level => Log_handle name level a
  | MessageDialogExceptionPlugin _ title msg => MessageDialog_handle rt title msg a
  | UserExceptionPlugin h _ => h a
  end.

(** The children [targets], called one after the other on the triple [a]
    from the state [w], all returned a truthy value, and left the state
    [w']. *)
Inductive all_truthy (rt : runtime) (a : exc_info)
  : list plugin -> world -> world -> Prop :=
| all_truthy_nil w : all_truthy rt a [] w w
| all_truthy_cons target rest v w w1 w2 :
    call rt target a w = (Return v, w1) ->
    truthy v = true ->
    all_truthy rt a rest w1 w2 ->
    all_truthy rt a (target :: rest) w w2.

(* ------------------------------------------------------------------------ *)
(** ** Observing a run *)

(** A terminal action: the dialog was shown, or the error went to the
    interpreter's own hook. *)
Definition is_terminal (e : event) : bool :=
  match e with
  | EvExcepthook _ | EvShow _ _ => true
  | EvLog _ _ _ | EvCalled _ => false
  end.

(** The events of [w'] that [w] does not have yet. *)
Definition new_events (w w' : world) : list event :=
  firstn (length (events w') - length (events w)) (events w').

Definition terminal_actions (w w' : world) : nat :=
  length (filter is_terminal (new_events w w')).

(* ------------------------------------------------------------------------ *)
(** ** Concrete runtimes, classes and plugins for the examples *)

Definition nl : string := String (Ascii.ascii_of_nat 10) EmptyString.

(** A part of the built-in exception hierarchy. *)
Definition builtin_mro (c : cls) : list cls :=
  if String.eqb c "KeyError" then
    ["KeyError"; "LookupError"; "StandardError"; "Exception"; "BaseException"; "object"]
  else if String.eqb c "IndexError" then
    ["IndexError"; "LookupError"; "StandardError"; "Exception"; "BaseException"; "object"]
  else if String.eqb c "LookupError" then
    ["LookupError"; "StandardError"; "Exception"; "BaseException"; "object"]
  else if String.eqb c "ValueError" then
    ["ValueError"; "StandardError"; "Exception"; "BaseException"; "object"]
  else if String.eqb c "DevFailed" then
    ["DevFailed"; "Exception"; "BaseException"; "object"]
  else if String.eqb c "Exception" then
    ["Exception"; "BaseException"; "object"]
  else [c; "object"].

(** The last line of a traceback, for exceptions whose [str] is their
    first argument. *)
Definition simple_format_exception_only
    (t : option cls) (v : option exception) : list string :=
  match t, v with
  | None, _ => ["None" ++ nl]
  | Some c, Some (mkException (OStr s :: _)) => [c ++ ": " ++ s ++ nl]
  | Some c, _ => [c ++ nl]
  end.

Definition simple_format_exception
    (t : option cls) (v : option exception) (tb : option traceback)
  : list string :=
  match tb with
  | Some (_ :: _) =>
      ("Traceback (most recent call last):" ++ nl)
        :: simple_format_exception_only t v
  | _ => simple_format_exception_only t v
  end.

(** Neither PyTango nor pygments can be imported. *)
Definition plain_runtime : runtime :=
  {| mro := builtin_mro;
     PyTango := false;
     pygments := None;
     dict_rank := fun _ k => String.length k;
     format_exception_only := simple_format_exception_only;
     format_exception := simple_format_exception;
     ui_windowTitle := "Form";
     ui_text := "TextLabel" |}.

(** PyTango is installed. *)
Definition tango_runtime : runtime :=
  {| mro := builtin_mro;
     PyTango := true;
     pygments := None;
     dict_rank := fun _ k => String.length k;
     format_exception_only := simple_format_exception_only;
     format_exception := simple_format_exception;
     ui_windowTitle := "Form";
     ui_text := "TextLabel" |}.

(** The process before any error: no dict made yet, no exception in
    flight, no dialog. *)
Definition fresh_world : world :=
  mkWorld [] no_exc_info false None [].

(** Two formatter classes a user may write: subclasses of the base
    formatter with a title of their own. *)
Definition user_formatter (rt : runtime) (name : string) : formatter_class :=
  {| fmt_name := name;
     toTitle := fun _ => Return name;
     toErrorHtml := Base_toErrorHtml rt;
     toDetailedErrorHtml := Base_toDetailedErrorHtml (Base_toErrorHtml rt);
     toOriginHtml := Base_toOriginHtml rt |}.

(** [raise KeyError("beam")] with a one-frame traceback. *)
Definition key_error : exc_info :=
  mkExcInfo (Some "KeyError") (Some (mkException [OStr "beam"]))
            (Some [mkFrame "beam.py" 22 "turnBeamOn"]).

(** A plugin whose [handle] raises. *)
Definition faulty_plugin (target : option plugin) : plugin :=
  UserExceptionPlugin (fun _ => throw (OtherError "RuntimeError")) target.

(** A callable that leaves a mark and returns [v]. *)
Definition probe (tag : string) (v : value) : plugin :=
  UserExceptionPlugin (fun _ w => (Return v, emit (EvCalled tag) w)) None.

(** The dialog plugin's box with its check box ticked. *)
Definition ticked_box : dialog :=
  mkDialog no_exc_info "Form" "Form" "TextLabel" EmptyString EmptyString
    Checked false true.

Definition ticked_world : world :=
  mkWorld [] no_exc_info true (Some ticked_box) [].

(* ======================================================================== *)
(** * The exception plugin chain *)

(* ------------------------------------------------------------------------ *)
(** ** More on chains *)

(** A chain made of the classes of [exceptionplugin.py] alone, with their
    own [handle]: no dialog plugin, no overwritten [handle]. *)
Fixpoint stock (p : plugin) : bool :=
  match p with
  | BaseExceptionPlugin t =>
      match t with Some q => stock q | None => true end
  | MultiplexExceptionPlugin elements t =>
      forallb stock elements
      && match t with Some q => stock q | None => true end
  | LogExceptionPlugin t _ _ =>
      match t with Some q => stock q | None => true end
  | MessageDialogExceptionPlugin _ _ _ => false
  | UserExceptionPlugin _ _ => false
  end.

(** The same plugin, constructed with [target=t]. *)
Definition with_target (p : plugin) (t : option plugin) : plugin :=
  match p with
  | BaseExceptionPlugin _ => BaseExceptionPlugin t
  | MultiplexExceptionPlugin elements _ => MultiplexExceptionPlugin elements t
  | LogExceptionPlugin _ name level => LogExceptionPlugin t name level
  | MessageDialogExceptionPlugin _ title msg =>
      MessageDialogExceptionPlugin t title msg
  | UserExceptionPlugin h _ => UserExceptionPlugin h t
  end.

(** What the stock plugins write for the triple [a]. *)
Definition is_report_of (a : exc_info) (e : event) : Prop :=
  e = EvExcepthook a \/ exists name level, e = EvLog name level a.

(** Two runs that end in the same state and whose results are the same as
    far as a caller that only tests them can tell. *)
Definition same_verdict (r1 r2 : outcome value * world) : Prop :=
  snd r1 = snd r2
  /\ match fst r1, fst r2 with
     | Return v1, Return v2 => truthy v1 = truthy v2
     | Raise e1, Raise e2 => e1 = e2
     | _, _ => False
     end.

(** The state [w] with the events [evs] on top, all else as it was. *)
Definition add_events (evs : list event) (w : world) : world :=
  mkWorld (heap w) (sys_exc_info w) (qapp w) (MSG_BOX w)
    (List.app evs (events w)).

(* ------------------------------------------------------------------------ *)
(** ** More on the registry and the formatters *)

(** [registerErrorHandler] called for one pair after the other. *)
Fixpoint register_all (klass : widget_class)
    (regs : list (cls * formatter_class)) : M unit :=
  match regs with
  | [] => ret tt
  | (err_type, err_handler) :: regs' =>
      bind (registerErrorHandler klass err_type err_handler)
        (fun _ => register_all klass regs')
  end.

(** A [PyTango.DevError]: an object with [origin], [reason] and [desc]. *)
Definition is_DevError (o : pyobj) : bool :=
  match o with
  | ODevError _ _ _ => true
  | OStr _ | OInt _ => false
  end.

(** The markup of one [DevError] in the detail view: reason and
    description, the origin below, a rule after it. *)
Definition Tango_block (rt : runtime) (o : pyobj) : string :=
  match o with
  | ODevError origin reason desc =>
      "<pre>" ++ reason ++ ": " ++ desc ++ "</pre>"
      ++ match pygments rt with
         | Some pg =>
             if String.prefix "PyDs_" reason then highlight pg origin
             else "<pre>" ++ origin ++ "</pre>"
         | None => "<pre>" ++ origin ++ "</pre>"
         end
      ++ "<hr>"
  | OStr _ | OInt _ => EmptyString
  end.

(* ------------------------------------------------------------------------ *)
(** ** More on the dialog plugin *)

(** The chain [p] installed as [sys.excepthook] and run for one uncaught
    error after the other; an exception raised by the hook itself is
    printed by the interpreter and the process goes on in the state the
    hook left. *)
Definition dispatch_all (rt : runtime) (p : plugin) (errors : list exc_info)
    (w : world) : world :=
  fold_left (fun w a => snd (call rt p a w)) errors w.

(* ------------------------------------------------------------------------ *)
(** ** protect *)

(** The process together with the module attribute
    [__PROTECT_ERROR_DIALOG], the one dialog [protect] keeps. *)
Record protect_world : Type := mkProtectWorld
  { process : world;
    PROTECT_ERROR_DIALOG : option dialog }.

(** [_ProtectErrorDialog]; [WA_QuitOnClose] is an attribute the dialogs
    here do not have.  Nothing on this path calls [Application()]: the
    dialog is built as [ErrorDialog] builds it in a process that has its
    [QApplication]. *)
Definition _ProtectErrorDialog (rt : runtime) (a : exc_info)
    (pw : protect_world) : outcome (option dialog) * protect_world :=
  match
    match PROTECT_ERROR_DIALOG pw with
    | None =>
        match new_ErrorDialog rt a (process pw) with
        | (Raise e, w') => (Raise e, mkProtectWorld w' None)
        | (Return box, w') => (Return box, mkProtectWorld w' (Some box))
        end
    | Some box =>
        match ErrorDialog_setError rt box a (process pw) with
        | (Raise e, box', w') => (Raise e, mkProtectWorld w' (Some box'))
        | (Return _, box', w') => (Return box', mkProtectWorld w' (Some box'))
        end
    end
  with
  | (Raise e, pw') => (Raise e, pw')
  | (Return box, pw') =>
      if CheckState_eqb (checkBoxState box) Checked then (Return None, pw')
      else (Return (Some box), pw')
  end.

Definition set_sys_exc_info (w : world) (i : exc_info) : world :=
  mkWorld (heap w) i (qapp w) (MSG_BOX w) (events w).

(** The function [wrapper] that [protect(obj, title, msg, async,
    re_throw)] returns, called on arguments with which [obj] runs as
    [obj].  A callable that raises leaves the triple of its exception in
    [sys_exc_info]: that is what [sys.exc_info()] gives in the [except]
    block; when [wrapper] returns, the exception in flight is the one
    from before the call again.  [user] is what the user does to the
    dialog while [exec_()] has it open. *)
Definition protect_wrapper (rt : runtime) (title msg : option string)
    (async re_throw : bool) (user : dialog -> dialog) (obj : M value)
    (pw : protect_world) : outcome value * protect_world :=
  let leave (pw' : protect_world) :=
    mkProtectWorld
      (set_sys_exc_info (process pw') (sys_exc_info (process pw)))
      (PROTECT_ERROR_DIALOG pw') in
  match obj (process pw) with
  | (Return v, w1) => (Return v, mkProtectWorld w1 (PROTECT_ERROR_DIALOG pw))
  | (Raise e, w1) =>
      match _ProtectErrorDialog rt (sys_exc_info w1)
              (mkProtectWorld w1 (PROTECT_ERROR_DIALOG pw)) with
      | (Raise e', pw2) => (Raise e', pw2)
      | (Return None, pw2) => (Return VNone, leave pw2)
      | (Return (Some msgbox), pw2) =>
          let msgbox :=
            match title with Some t => setWindowTitle msgbox t | None => msgbox end in
          let msgbox :=
            match msg with Some m => setText msgbox m | None => msgbox end in
          let shown := EvShow (windowTitle msgbox) (text msgbox) in
          let msgbox :=
            if async then setVisible (setModal msgbox false) true
            else setVisible (user msgbox) false in
          let pw3 :=
            mkProtectWorld (emit shown (process pw2)) (Some msgbox) in
          if re_throw then (Raise e, pw3) else (Return VNone, leave pw3)
      end
  end.

(** What [protect] is given as [obj]. *)
Inductive protect_obj : Type :=
| ObjNone
| ObjCallable (obj : M value)
| ObjOther (v : value).

(** What [protect] returns: itself with the keywords fixed, or the
    wrapper. *)
Inductive protect_result : Type :=
| Partial (title msg : option string) (async re_throw : bool)
| Wrapper (run : protect_world -> outcome value * protect_world).

Definition protect (rt : runtime) (user : dialog -> dialog)
    (obj : protect_obj) (title msg : option string) (async re_throw : bool)
  : outcome protect_result :=
  match obj with
  | ObjNone => Return (Partial title msg async re_throw)
  | ObjOther _ => Raise TypeError
  | ObjCallable f =>
      Return (Wrapper (protect_wrapper rt title msg async re_throw user f))
  end.

(** [turnBeamOn(beamer)] of the module's example: a callable that raises
    [Exception("Could not turn on beam!")]. *)
Definition beam_error : exc_info :=
  mkExcInfo (Some "Exception") (Some (mkException [OStr "Could not turn on beam!"]))
            (Some [mkFrame "demo.py" 22 "turnBeamOn"]).

Definition turnBeamOn : M value :=
  fun w => (Raise (OtherError "Exception"), set_sys_exc_info w beam_error).

(** A device call that fails with a [DevFailed] that has no [args]. *)
Definition empty_DevFailed : exc_info :=
  mkExcInfo (Some DevFailed) (Some (mkException [])) (Some []).

Definition read_attribute : M value :=
  fun w => (Raise (OtherError "DevFailed"), set_sys_exc_info w empty_DevFailed).

(* ------------------------------------------------------------------------ *)
(** ** application.py *)

(** A [QApplication], as far as [Application] sets it up. *)
Record qapplication : Type := mkQApplication
  { app_argv : list string;
    applicationName : string;
    applicationVersion : string;
    organizationName : string;
    organizationDomain : string }.

(** The keyword arguments [Application] looks at; [None] for a keyword
    that is not given. *)
Record application_kwargs : Type := mkApplicationKwargs
  { init_logging : option value;
    init_application : option value;
    init_organization : option value;
    application_name : option string;
    application_version : option string;
    organization_name : option string;
    organization_domain : option string }.

(** [qarbon.config], [sys.argv] and the constructor of [QApplication]. *)
Record qarbon_config : Type := mkConfig
  { APPLICATION_NAME : string;
    APPLICATION_VERSION : string;
    ORGANIZATION_NAME : string;
    ORGANIZATION_DOMAIN : string;
    sys_argv : list string;
    QApplication : list string -> qapplication }.

Record qt_state : Type := mkQtState
  { instance : option qapplication;   (* QApplication.instance() *)
    log_initialized : nat;            (* calls of log.initialize() *)
    log_infos : list string }.        (* log.info records, last first *)

(** [kwargs.get(key, default)] *)
Definition kwargs_get {A} (given : option A) (default : A) : A :=
  match given with
  | Some x => x
  | None => default
  end.

(** [Application(argv, **kwargs)] *)
Definition Application_full (cfg : qarbon_config)
    (argv : option (list string)) (kwargs : application_kwargs)
    (st : qt_state) : qapplication * qt_state :=
  let st :=
    if truthy (kwargs_get (init_logging kwargs) (VBool false))
    then mkQtState (instance st) (S (log_initialized st)) (log_infos st)
    else st in
  match instance st with
  | None =>
      let argv := match argv with Some l => l | None => sys_argv cfg end in
      let app := QApplication cfg argv in
      let app :=
        if truthy (kwargs_get (init_application kwargs) (VBool true))
        then mkQApplication (app_argv app)
               (kwargs_get (application_name kwargs) (APPLICATION_NAME cfg))
               (kwargs_get (application_version kwargs) (APPLICATION_VERSION cfg))
               (organizationName app) (organizationDomain app)
        else app in
      let app :=
        if truthy (kwargs_get (init_organization kwargs) (VBool true))
        then mkQApplication (app_argv app)
               (applicationName app) (applicationVersion app)
               (kwargs_get (organization_name kwargs) (ORGANIZATION_NAME cfg))
               (kwargs_get (organization_domain kwargs) (ORGANIZATION_DOMAIN cfg))
        else app in
      (app, mkQtState (Some app) (log_initialized st) (log_infos st))
  | Some app =>
      match argv with
      | Some (_ :: _) =>
          (app,
           mkQtState (Some app) (log_initialized st)
             ("QApplication already initialized. argv will have no effect"
                :: log_infos st))
      | _ => (app, st)
      end
  end.

(** [Application] called again and again. *)
Definition Application_calls (cfg : qarbon_config)
    (calls : list (option (list string) * application_kwargs))
    (st : qt_state) : qt_state :=
  fold_left (fun st c => snd (Application_full cfg (fst c) (snd c) st)) calls st.

Local Open Scope list_scope.

Section PluginChain.

Variable rt : runtime.

Lemma bind_Return {A B} (c : M A) (k : A -> M B) w a w1 :
  c w = (Return a, w1) -> bind c k w = k a w1.
Proof. intros H. unfold bind. rewrite H. reflexivity. Qed.

Lemma bind_Raise {A B} (c : M A) (k : A -> M B) w e w1 :
  c w = (Raise e, w1) -> bind c k w = (Raise e, w1).
Proof. intros H. unfold bind. rewrite H. reflexivity. Qed.

(** The loop written inside [call] is [Multiplex_loop] over [call]. *)
Lemma Multiplex_loop_call a elements w :
  (fix loop (targets : list plugin) : M value :=
     match targets with
     | [] => ret (VBool true)
     | target :: rest =>
         bind (call rt target a) (fun ret_ =>
         if negb (truthy ret_) then ret (VBool false) else loop rest)
     end) elements w
  = Multiplex_loop (call rt) elements a w.
Proof.
  revert w. induction elements as [|target rest IH]; intros w.
  - reflexivity.
  - cbn [Multiplex_loop]. unfold bind at 1 3.
    destruct (call rt target a w) as [[v|e] w1]; [|reflexivity].
    destruct (negb (truthy v)); [reflexivity|]. apply IH.
Qed.

(** [__call__] is [handle], then the target when there is one and the
    result is truthy. *)
Lemma call_eq self a w :
  call rt self a w =
  bind (handle rt self a) (fun result =>
    match truthy result, _target self with
    | true, Some target => call rt target a
    | _, _ => ret result
    end) w.
Proof.
  destruct self as [t|elements t|t name level|t title msg|h t];
    cbn [call handle _target]; try reflexivity.
  unfold bind at 1 3. rewrite Multiplex_loop_call. reflexivity.
Qed.

(** What the call returns once [handle] has returned. *)
Lemma call_after_handle self a w result w1 :
  handle rt self a w = (Return result, w1) ->
  call rt self a w =
    match truthy result, _target self with
    | true, Some target => call rt target a w1
    | _, _ => (Return result, w1)
    end.
Proof.
  intros H. rewrite call_eq. rewrite (bind_Return _ _ _ _ _ H).
  destruct (truthy result), (_target self); reflexivity.
Qed.

Lemma Multiplex_loop_cons a target rest w :
  Multiplex_loop (call rt) (target :: rest) a w =
  match call rt target a w with
  | (Return v, w1) =>
      if truthy v then Multiplex_loop (call rt) rest a w1
      else (Return (VBool false), w1)
  | (Raise e, w1) => (Raise e, w1)
  end.
Proof.
  cbn [Multiplex_loop]. unfold bind.
  destruct (call rt target a w) as [[v|e] w1]; [|reflexivity].
  destruct (truthy v); reflexivity.
Qed.

(** Past children that all answered truthy, the loop goes on with the
    remaining ones. *)
Lemma Multiplex_loop_app a pre post w w1 :
  all_truthy rt a pre w w1 ->
  Multiplex_loop (call rt) (pre ++ post) a w
  = Multiplex_loop (call rt) post a w1.
Proof.
  induction 1 as [w|target rest v w w1 w2 Hc Hv _ IH].
  - reflexivity.
  - rewrite <- app_comm_cons, Multiplex_loop_cons, Hc, Hv. exact IH.
Qed.

Lemma Multiplex_loop_true a elements w w' :
  Multiplex_loop (call rt) elements a w = (Return (VBool true), w')
  <-> all_truthy rt a elements w w'.
Proof.
  split.
  - revert w. induction elements as [|target rest IH]; intros w H.
    + cbn in H. injection H as <-. constructor.
    + rewrite Multiplex_loop_cons in H.
      destruct (call rt target a w) as [[v|e] w1] eqn:Hc; [|discriminate].
      destruct (truthy v) eqn:Hv; [|discriminate].
      econstructor; eauto.
  - intros H. rewrite <- (app_nil_r elements).
    rewrite (Multiplex_loop_app a elements [] w w' H). reflexivity.
Qed.

Lemma Multiplex_loop_false a elements w w' :
  Multiplex_loop (call rt) elements a w = (Return (VBool false), w')
  <-> exists pre target post v w1,
        elements = pre ++ target :: post
        /\ all_truthy rt a pre w w1
        /\ call rt target a w1 = (Return v, w')
        /\ truthy v = false.
Proof.
  split.
  - revert w. induction elements as [|target rest IH]; intros w H.
    + discriminate.
    + rewrite Multiplex_loop_cons in H.
      destruct (call rt target a w) as [[v|e] w1] eqn:Hc; [|discriminate].
      destruct (truthy v) eqn:Hv.
      * destruct (IH _ H) as (pre & c & post & v' & w2 & -> & Hpre & Hc' & Hv').
        exists (target :: pre), c, post, v', w2.
        repeat split; auto. econstructor; eauto.
      * injection H as <-.
        exists [], target, rest, v, w. repeat split; auto. constructor.
  - intros (pre & c & post & v & w1 & -> & Hpre & Hc & Hv).
    rewrite (Multiplex_loop_app a pre (c :: post) w w1 Hpre).
    rewrite Multiplex_loop_cons, Hc, Hv. reflexivity.
Qed.

(** The loop returns [True] or [False], whatever the children return. *)
Lemma Multiplex_loop_bool a elements w v w' :
  Multiplex_loop (call rt) elements a w = (Return v, w') ->
  exists b, v = VBool b.
Proof.
  revert w. induction elements as [|target rest IH]; intros w H.
  - injection H as <- _. eauto.
  - rewrite Multiplex_loop_cons in H.
    destruct (call rt target a w) as [[v1|e] w1]; [|discriminate].
    destruct (truthy v1); [eauto|]. injection H as <- _. eauto.
Qed.

End PluginChain.

(** The marks left by three probes in a multiplex whose second child
    answers [None]: the third one never runs, nor does the target. *)
Example multiplex_probes_run :
  let chain :=
    MultiplexExceptionPlugin
      [probe "a" (VInt 1); probe "b" VNone; probe "c" (VBool true)]
      (Some (BaseExceptionPlugin None)) in
  let r := call plain_runtime chain key_error fresh_world in
  fst r = Return (VBool false)
  /\ events (snd r) = [EvCalled "b"; EvCalled "a"].
Proof. split; reflexivity. Qed.

(** C3. [MultiplexExceptionPlugin.handle] is a short-circuiting conjunction
    over its children, in list order.  It returns [False] exactly when the
    children split as [pre ++ target :: post] where every child of [pre],
    called in turn, returned a truthy value and [target], called next,
    returned a falsy one; the state it leaves is the one [target] left, so
    no child of [post] was called.  It returns [True] exactly when every
    child, called in turn, returned a truthy value.  It returns nothing but
    [True] or [False]. *)
Theorem multiplex_handle_short_circuit rt elements t a w w' :
  (handle rt (MultiplexExceptionPlugin elements t) a w
     = (Return (VBool false), w')
   <-> exists pre target post v w1,
         elements = pre ++ target :: post
         /\ all_truthy rt a pre w w1
         /\ call rt target a w1 = (Return v, w')
         /\ truthy v = false)
  /\ (handle rt (MultiplexExceptionPlugin elements t) a w
        = (Return (VBool true), w')
      <-> all_truthy rt a elements w w')
  /\ (forall v,
        handle rt (MultiplexExceptionPlugin elements t) a w = (Return v, w') ->
        exists b, v = VBool b).
Proof.
  cbn [handle]. split; [|split].
  - apply Multiplex_loop_false.
  - apply Multiplex_loop_true.
  - intros v H. eapply Multiplex_loop_bool; eauto.
Qed.

(** C4. [BaseExceptionPlugin.__call__]: when the plugin's own [handle]
    returns [result], the call returns what the target returns on the same
    triple if [result] is truthy and a target is set, and [result] itself
    otherwise; so when [handle] returns [False] the call returns [False]
    in the state [handle] left, the target not having run. *)
Theorem delegating_call_dispatch rt self a w result w1 :
  handle rt self a w = (Return result, w1) ->
  call rt self a w =
    match truthy result, _target self with
    | true, Some target => call rt target a w1
    | _, _ => (Return result, w1)
    end
  /\ (result = VBool false -> call rt self a w = (Return (VBool false), w1)).
Proof.
  intros H. pose proof (call_after_handle rt self a w result w1 H) as E.
  split; [exact E|].
  intros ->. rewrite E. reflexivity.
Qed.

Lemma delegating_call_dispatch_witness :
  let self := LogExceptionPlugin (Some (BaseExceptionPlugin None)) None CRITICAL in
  let w1 := emit (EvLog None CRITICAL key_error) fresh_world in
  handle plain_runtime self key_error fresh_world = (Return (VBool true), w1)
  /\ call plain_runtime self key_error fresh_world
     = call plain_runtime (BaseExceptionPlugin None) key_error w1.
Proof.
  split; [reflexivity|].
  apply (delegating_call_dispatch plain_runtime
           (LogExceptionPlugin (Some (BaseExceptionPlugin None)) None CRITICAL)
           key_error fresh_world (VBool true)
           (emit (EvLog None CRITICAL key_error) fresh_world)).
  reflexivity.
Defined.

(** C10. A multiplex plugin without children: [handle] returns [True] and
    leaves the state as it was, so the call goes on to the target when one
    is set and returns [True] otherwise. *)
Theorem empty_multiplex_handle_true rt t a w :
  handle rt (MultiplexExceptionPlugin [] t) a w = (Return (VBool true), w)
  /\ call rt (MultiplexExceptionPlugin [] t) a w =
     match t with
     | Some target => call rt target a w
     | None => (Return (VBool true), w)
     end.
Proof.
  split; [reflexivity|].
  rewrite call_eq. cbn. destruct t; reflexivity.
Qed.

(** C2, as the spec has it, fails: the handler of [faulty_plugin] raises,
    and the call of the plugin raises with it instead of returning. *)
Lemma handler_fault_not_contained :
  ~ (forall rt self a w e w1,
       handle rt self a w = (Raise e, w1) ->
       exists v w2, call rt self a w = (Return v, w2)).
Proof.
  intros H.
  destruct (H plain_runtime (faulty_plugin (Some (BaseExceptionPlugin None)))
              key_error fresh_world (OtherError "RuntimeError") fresh_world
              eq_refl) as (v & w2 & E).
  discriminate E.
Qed.

(** C2, amended.  An exception raised by a plugin's [handle] leaves the
    plugin's call as it is: the target is not called and nothing is written
    anywhere beyond what [handle] did before raising.  When the plugin is a
    child of a multiplex and the children before it answered truthy, the
    call of the multiplex raises the same exception in the same state: the
    children after it and the target of the multiplex are not called. *)
Theorem handler_fault_propagates rt self a w e w1 :
  handle rt self a w = (Raise e, w1) ->
  call rt self a w = (Raise e, w1)
  /\ (forall pre post t w0,
        all_truthy rt a pre w0 w ->
        call rt (MultiplexExceptionPlugin (pre ++ self :: post) t) a w0
        = (Raise e, w1)).
Proof.
  intros H.
  assert (E : call rt self a w = (Raise e, w1)).
  { rewrite call_eq. apply bind_Raise. exact H. }
  split; [exact E|].
  intros pre post t w0 Hpre.
  rewrite call_eq. apply bind_Raise. cbn [handle].
  rewrite (Multiplex_loop_app rt a pre (self :: post) w0 w Hpre).
  rewrite Multiplex_loop_cons, E. reflexivity.
Qed.

Lemma handler_fault_propagates_witness :
  let w := emit (EvCalled "first") fresh_world in
  handle plain_runtime (faulty_plugin None) key_error w
    = (Raise (OtherError "RuntimeError"), w)
  /\ call plain_runtime
       (MultiplexExceptionPlugin
          [probe "first" (VBool true); faulty_plugin None; probe "last" (VBool true)]
          (Some (BaseExceptionPlugin None)))
       key_error fresh_world
     = (Raise (OtherError "RuntimeError"), w).
Proof.
  split; [reflexivity|].
  apply (proj2 (handler_fault_propagates plain_runtime (faulty_plugin None)
                  key_error (emit (EvCalled "first") fresh_world)
                  (OtherError "RuntimeError")
                  (emit (EvCalled "first") fresh_world) eq_refl)
           [probe "first" (VBool true)] [probe "last" (VBool true)]
           (Some (BaseExceptionPlugin None)) fresh_world).
  eapply all_truthy_cons; [reflexivity|reflexivity|constructor].
Defined.

(* ======================================================================== *)
(** * The formatter registry *)

Section Registry.

Variable rt : runtime.

Lemma nth_list_update_last {A} (l : list A) (x d : A) (f : A -> A) :
  nth (length l) (list_update (l ++ [x]) (length l) f) d = f x.
Proof. induction l as [|y l IH]; [reflexivity|exact IH]. Qed.

Lemma length_list_update {A} (l : list A) (i : nat) (f : A -> A) :
  length (list_update l i f) = length l.
Proof.
  revert i. induction l as [|y l IH]; intros [|i]; cbn; auto.
Qed.

Lemma nth_app_last {A} (l : list A) (x d : A) :
  nth (length l) (l ++ [x]) d = x.
Proof. induction l as [|y l IH]; [reflexivity|exact IH]. Qed.

(** Going through a dict in the interpreter's order meets the entries of
    the dict and no others. *)
Lemma In_insert_ranked {V} (rank : cls -> nat) (x y : cls * V) (l : dict V) :
  In y (insert_ranked rank x l) -> y = x \/ In y l.
Proof.
  induction l as [|z l IH]; cbn [insert_ranked].
  - intros [E|[]]. left. symmetry. exact E.
  - destruct (Nat.leb (rank (fst x)) (rank (fst z))).
    + intros [E|H]; [left; symmetry; exact E|right; exact H].
    + intros [E|H]; [right; left; exact E|].
      destruct (IH H) as [E|H']; [left; exact E|right; right; exact H'].
Qed.

Lemma In_iteration_order {V} (rank : list cls -> cls -> nat) (y : cls * V)
    (d : dict V) :
  In y (iteration_order rank d) -> In y d.
Proof.
  unfold iteration_order. generalize (rank (map fst d)). intros r.
  induction d as [|x d IH]; cbn [sort_ranked]; [intros []|].
  intros H. destruct (In_insert_ranked r x y _ H) as [E|H'].
  - left. symmetry. exact E.
  - right. apply IH. exact H'.
Qed.

Lemma find_in_items_none c its :
  (forall k f, In (k, f) its -> issubclass rt (Some c) k = Return false) ->
  find_in_items rt (Some c) its = Return (BaseErrorFormatterPlugin rt).
Proof.
  intros H. induction its as [|[k f] its IH]; cbn [find_in_items].
  - reflexivity.
  - rewrite (H k f (or_introl eq_refl)). cbn [obind].
    apply IH. intros k0 f0 Hin. apply (H k0 f0). right. exact Hin.
Qed.

(** What [ErrorWidget.getErrorFormatters] returns: a dict object that did
    not exist before the call, holding the Tango entry or nothing. *)
Lemma ErrorWidget_getErrorFormatters_fresh w :
  exists w1,
    ErrorWidget_getErrorFormatters rt w = (Return (length (heap w)), w1)
    /\ nth (length (heap w)) (heap w1) [] =
       (if PyTango rt then [(DevFailed, TangoErrorFormatterPlugin rt)] else [])
    /\ length (heap w1) = S (length (heap w)).
Proof.
  unfold ErrorWidget_getErrorFormatters, bind, new_dict, setitem, ret.
  destruct (PyTango rt); eexists; (split; [reflexivity|]); cbn [heap set_heap].
  - split; [rewrite nth_list_update_last; reflexivity|].
    rewrite length_list_update, length_app. cbn. lia.
  - split; [apply nth_app_last|]. rewrite length_app. cbn. lia.
Qed.

(** Registering on [ErrorWidget] writes into a dict that nothing else
    refers to: whatever is registered, a lookup made afterwards answers as
    a lookup made before. *)
Lemma registerErrorHandler_no_effect K F c w :
  fst (bind (registerErrorHandler (ErrorWidget rt) K F)
         (fun _ => findErrorFormatter rt (ErrorWidget rt) c) w)
  = fst (findErrorFormatter rt (ErrorWidget rt) c w).
Proof.
  unfold registerErrorHandler, findErrorFormatter, ErrorWidget.
  cbn [getErrorFormatters].
  destruct (ErrorWidget_getErrorFormatters_fresh w) as (w1 & E1 & _ & _).
  unfold bind at 1 2. rewrite E1. unfold setitem at 1.
  set (w2 := set_heap w1 _).
  destruct (ErrorWidget_getErrorFormatters_fresh w2) as (w3 & E3 & D3 & _).
  destruct (ErrorWidget_getErrorFormatters_fresh w) as (w1' & E1' & D1' & _).
  unfold bind. rewrite E3, E1'. unfold items, lift. cbn [fst].
  rewrite D3, D1'. reflexivity.
Qed.

End Registry.

(** C6. When the queried class inherits from no class that has an entry
    in the dict of the widget class, the lookup returns
    [BaseErrorFormatterPlugin]; it returns, it does not raise. *)
Theorem unregistered_kind_gets_base_formatter rt klass c w d w1 :
  getErrorFormatters klass w = (Return d, w1) ->
  (forall k f, In (k, f) (nth d (heap w1) []) ->
               issubclass rt (Some c) k = Return false) ->
  findErrorFormatter rt klass (Some c) w
  = (Return (BaseErrorFormatterPlugin rt), w1).
Proof.
  intros Hget Hnone.
  unfold findErrorFormatter.
  rewrite (bind_Return _ _ _ _ _ Hget).
  unfold bind, items, lift.
  rewrite (find_in_items_none rt c (iteration_order (dict_rank rt) _)).
  - reflexivity.
  - intros k f Hin. apply (Hnone k f). apply In_iteration_order in Hin.
    exact Hin.
Qed.

Lemma unregistered_kind_gets_base_formatter_witness :
  let w1 := set_heap fresh_world [[(DevFailed, TangoErrorFormatterPlugin tango_runtime)]] in
  findErrorFormatter tango_runtime (ErrorWidget tango_runtime) (Some "KeyError")
    fresh_world
  = (Return (BaseErrorFormatterPlugin tango_runtime), w1).
Proof.
  apply (unregistered_kind_gets_base_formatter tango_runtime
           (ErrorWidget tango_runtime) "KeyError" fresh_world 0
           (set_heap fresh_world
              [[(DevFailed, TangoErrorFormatterPlugin tango_runtime)]])).
  - reflexivity.
  - intros k f [E|[]]. injection E as <- _. reflexivity.
Defined.

(* ======================================================================== *)
(** * The formatters *)

(** With the traceback functions of [plain_runtime], the four fields for
    no error at all. *)
Example translateError_of_nothing_plain :
  translateError (BaseErrorFormatterPlugin plain_runtime) no_exc_info
  = Return ("Unhandled Error"%string,
            ("None" ++ nl)%string,
            ("<html><body><pre>None" ++ nl ++ "</pre></body></html>")%string,
            (html_orig EmptyString ++ "<pre>None" ++ nl ++ "</pre>"
               ++ "</body></html>")%string).
Proof. reflexivity. Qed.

(** C7. [translateError(None, None, None)] on the base formatter returns
    a four-tuple and does not raise.  The title is ["Unhandled Error"].
    The summary is what [traceback.format_exception_only(None, None)]
    gives, joined.  The detail is that text in a [<pre>] block.  The origin
    is the page head with the style sheet, then what
    [traceback.format_exception(None, None, None)] gives, joined, in a
    [<pre>] block when pygments is missing and highlighted when it is
    there, then the page end. *)
Theorem translateError_of_nothing rt :
  translateError (BaseErrorFormatterPlugin rt) (mkExcInfo None None None)
  = Return
      ("Unhandled Error"%string,
       join (format_exception_only rt None None),
       ("<html><body><pre>" ++ join (format_exception_only rt None None)
          ++ "</pre></body></html>")%string,
       match pygments rt with
       | None =>
           ((html_orig EmptyString
               ++ "<pre>" ++ join (format_exception rt None None None)
               ++ "</pre>")
              ++ "</body></html>")%string
       | Some pg =>
           ((html_orig (get_style_defs pg)
               ++ highlight pg (join (format_exception rt None None None)))
              ++ "</body></html>")%string
       end).
Proof.
  unfold translateError.
  cbn [toTitle toErrorHtml toDetailedErrorHtml toOriginHtml
       BaseErrorFormatterPlugin].
  unfold Base_toTitle, Base_toDetailedErrorHtml, Base_toErrorHtml,
    Base_toOriginHtml.
  cbn [err_type err_value err_traceback obind].
  destruct (pygments rt); reflexivity.
Qed.

(** C8, as the spec has it, fails: the summary of the Tango formatter
    reads [err_value.args] and raises on a null value. *)
Lemma tango_fields_need_a_value :
  ~ (forall rt f ei,
       In f (formatter_variants rt) ->
       err_value ei = None \/ err_traceback ei = None ->
       (exists s, toTitle f ei = Return s)
       /\ (exists s, toErrorHtml f ei = Return s)
       /\ (exists s, toDetailedErrorHtml f ei = Return s)
       /\ (exists s, toOriginHtml f ei = Return s)).
Proof.
  intros H.
  destruct (H plain_runtime (TangoErrorFormatterPlugin plain_runtime)
              no_exc_info (or_intror (or_introl eq_refl)) (or_introl eq_refl))
    as (_ & (s & E) & _).
  discriminate E.
Qed.

(** C8, amended.  With a null error value, whatever the type and the
    trace: the base formatter's title is ["Unhandled Error"] for a null
    type and ["Unhandled Error (<name>)"] otherwise, its summary is what
    [traceback.format_exception_only] gives for the type and [None],
    joined, its detail is that text in a [<pre>] block, and its origin is
    the page around what [traceback.format_exception] gives; the Tango
    formatter's title is ["Tango Error"] and its origin is the same page,
    while its summary and its detail raise [AttributeError].  With a null
    trace, whatever the type and the value: title, summary and detail of
    either formatter are what they are with any other trace, and the
    origin of either is the page around what
    [traceback.format_exception] gives for [None] as trace. *)
Theorem field_producers_on_null rt t v tb :
  let base := BaseErrorFormatterPlugin rt in
  let tango := TangoErrorFormatterPlugin rt in
  let page (lines : list string) :=
    match pygments rt with
    | None =>
        ((html_orig EmptyString ++ "<pre>" ++ join lines ++ "</pre>")
           ++ "</body></html>")%string
    | Some pg =>
        ((html_orig (get_style_defs pg) ++ highlight pg (join lines))
           ++ "</body></html>")%string
    end in
  let no_value := mkExcInfo t None tb in
  let no_trace := mkExcInfo t v None in
  (toTitle base no_value
     = Return (match t with
               | None => "Unhandled Error"
               | Some c => "Unhandled Error (" ++ c ++ ")"
               end)%string
   /\ toErrorHtml base no_value
      = Return (join (format_exception_only rt t None))
   /\ toDetailedErrorHtml base no_value
      = Return ("<html><body><pre>" ++ join (format_exception_only rt t None)
                  ++ "</pre></body></html>")%string
   /\ toOriginHtml base no_value = Return (page (format_exception rt t None tb))
   /\ toTitle tango no_value = Return "Tango Error"%string
   /\ toOriginHtml tango no_value = Return (page (format_exception rt t None tb))
   /\ toErrorHtml tango no_value = Raise AttributeError
   /\ toDetailedErrorHtml tango no_value = Raise AttributeError)
  /\ (forall f, In f (formatter_variants rt) ->
        toTitle f no_trace = toTitle f (mkExcInfo t v tb)
        /\ toErrorHtml f no_trace = toErrorHtml f (mkExcInfo t v tb)
        /\ toDetailedErrorHtml f no_trace
           = toDetailedErrorHtml f (mkExcInfo t v tb)
        /\ toOriginHtml f no_trace
           = Return (page (format_exception rt t v None))).
Proof.
  cbv zeta. split.
  - cbn [toTitle toErrorHtml toDetailedErrorHtml toOriginHtml
         BaseErrorFormatterPlugin TangoErrorFormatterPlugin].
    unfold Base_toTitle, Base_toDetailedErrorHtml, Base_toErrorHtml,
      Base_toOriginHtml, Tango_toTitle, Tango_toErrorHtml,
      Tango_toDetailedErrorHtml, Tango_toOriginHtml.
    cbn [err_type err_value err_traceback obind].
    destruct t, (pygments rt); repeat split; reflexivity.
  - intros f [<-|[<-|[]]];
      cbn [toTitle toErrorHtml toDetailedErrorHtml toOriginHtml
           BaseErrorFormatterPlugin TangoErrorFormatterPlugin];
      unfold Base_toTitle, Base_toDetailedErrorHtml, Base_toErrorHtml,
        Base_toOriginHtml, Tango_toTitle, Tango_toErrorHtml,
        Tango_toDetailedErrorHtml, Tango_toOriginHtml;
      cbn [err_type err_value err_traceback obind];
      destruct (pygments rt); repeat split; reflexivity.
Qed.

(* ======================================================================== *)
(** * The dialog plugin *)

Section DialogPlugin.

Variable rt : runtime.

(** Looking a formatter up makes a dict and nothing else. *)
Lemma findErrorFormatter_events c w r w1 :
  findErrorFormatter rt (ErrorWidget rt) c w = (r, w1) ->
  events w1 = events w.
Proof.
  unfold findErrorFormatter, ErrorWidget, ErrorWidget_getErrorFormatters.
  cbn [getErrorFormatters].
  unfold bind, new_dict, setitem, ret, items, lift.
  destruct (PyTango rt); intros H; injection H as _ <-; reflexivity.
Qed.

Lemma ErrorWidget_setError_events self a w r self' w1 :
  ErrorWidget_setError rt self a w = (r, self', w1) ->
  events w1 = events w.
Proof.
  unfold ErrorWidget_setError.
  destruct (findErrorFormatter rt (ErrorWidget rt) _ w) as [[f|e] w2] eqn:F;
    apply findErrorFormatter_events in F.
  - destruct (translateError f _) as [[[[ti er] de] og]|e'];
      intros H; injection H as _ _ <-; exact F.
  - intros H; injection H as _ _ <-; exact F.
Qed.

Lemma getMessageBox_events a w r w1 :
  _getMessageBox rt a w = (r, w1) ->
  events w1 = events w
  /\ match r with
     | Return None =>
         exists box, MSG_BOX w1 = Some box /\ checkBoxState box = Checked
     | Return (Some box) =>
         MSG_BOX w1 = Some box /\ checkBoxState box <> Checked
     | Raise _ => True
     end.
Proof.
  unfold _getMessageBox, bind.
  destruct (MSG_BOX w) as [box|].
  - unfold ErrorDialog_setError.
    destruct (ErrorWidget_setError rt box a w) as [[[u|e] box'] w2] eqn:S;
      apply ErrorWidget_setError_events in S.
    + destruct (CheckState_eqb (checkBoxState _) Checked) eqn:C;
        unfold ret; intros H; injection H as <- <-; (split; [exact S|]).
      * eexists. split; [reflexivity|].
        destruct (checkBoxState _); try discriminate C; reflexivity.
      * split; [reflexivity|]. intros E. rewrite E in C. discriminate C.
    + intros H; injection H as <- <-. split; [exact S|exact I].
  - unfold new_ErrorDialog.
    destruct (err_value (if all_None a then sys_exc_info w else a)) as [ev|].
    + destruct (ErrorWidget_setError rt _ _ w) as [[[u|e] box'] w2] eqn:S;
        apply ErrorWidget_setError_events in S.
      * destruct (CheckState_eqb (checkBoxState _) Checked) eqn:C;
          unfold ret; intros H; injection H as <- <-; (split; [exact S|]).
        -- eexists. split; [reflexivity|].
           destruct (checkBoxState _); try discriminate C; reflexivity.
        -- split; [reflexivity|]. intros E. rewrite E in C. discriminate C.
      * intros H; injection H as <- <-. split; [exact S|exact I].
    + cbn. unfold ret. intros H; injection H as <- <-.
      split; [reflexivity|]. split; [reflexivity|discriminate].
Qed.



End DialogPlugin.

(** The dialog plugin in front of the interpreter's hook, on a first
    error: the dialog is shown and the hook runs as well.  The dialog
    plugin alone, its box ticked: nothing happens at all. *)
Example dialog_plugin_two_actions_or_none :
  let to_default :=
    MessageDialogExceptionPlugin (Some (BaseExceptionPlugin None)) None None in
  let alone := MessageDialogExceptionPlugin None None None in
  let r2 := call plain_runtime to_default key_error fresh_world in
  let r0 := call plain_runtime alone key_error ticked_world in
  fst r2 = Return (VBool true)
  /\ terminal_actions fresh_world (snd r2) = 2
  /\ fst r0 = Return VNone
  /\ terminal_actions ticked_world (snd r0) = 0
  /\ events (snd r0) = [].
Proof. repeat split; reflexivity. Qed.




(* ======================================================================== *)
(** * More on the plugin chain *)

Section ChainAlgebra.

Variable rt : runtime.

(** Induction over a plugin, its children and its target. *)
Lemma plugin_induction (P : plugin -> Prop) :
  (forall t, (forall q, t = Some q -> P q) -> P (BaseExceptionPlugin t)) ->
  (forall elements t,
      Forall P elements -> (forall q, t = Some q -> P q) ->
      P (MultiplexExceptionPlugin elements t)) ->
  (forall t name level,
      (forall q, t = Some q -> P q) -> P (LogExceptionPlugin t name level)) ->
  (forall t title msg,
      (forall q, t = Some q -> P q) ->
      P (MessageDialogExceptionPlugin t title msg)) ->
  (forall h t, (forall q, t = Some q -> P q) -> P (UserExceptionPlugin h t)) ->
  forall p, P p.
Proof.
  intros HB HM HL HD HU.
  fix IH 1. intros p.
  assert (T : forall t : option plugin, forall q, t = Some q -> P q).
  { intros [q'|] q E; [injection E as <-; apply IH|discriminate E]. }
  destruct p as [t|elements t|t name level|t title msg|h t].
  - apply HB, T.
  - apply HM; [|apply T].
    induction elements as [|c elements IHl]; constructor; [apply IH|exact IHl].
  - apply HL, T.
  - apply HD, T.
  - apply HU, T.
Qed.

(** The loop over [l1 ++ l2] is the loop over [l1] and, when that one
    came to its end, the loop over [l2]. *)
Lemma Multiplex_loop_append a l1 l2 w :
  Multiplex_loop (call rt) (l1 ++ l2) a w =
  match Multiplex_loop (call rt) l1 a w with
  | (Return v, w1) =>
      if truthy v then Multiplex_loop (call rt) l2 a w1
      else (Return (VBool false), w1)
  | (Raise e, w1) => (Raise e, w1)
  end.
Proof.
  revert w. induction l1 as [|c l1 IH]; intros w.
  - reflexivity.
  - rewrite <- app_comm_cons, !Multiplex_loop_cons.
    destruct (call rt c a w) as [[v|e] w1]; [|reflexivity].
    destruct (truthy v); [apply IH|reflexivity].
Qed.

Lemma handle_with_target p t a w :
  handle rt (with_target p t) a w = handle rt p a w.
Proof. destruct p; reflexivity. Qed.

End ChainAlgebra.

Lemma add_events_add_events evs2 evs1 w :
  add_events evs2 (add_events evs1 w) = add_events (evs2 ++ evs1) w.
Proof. unfold add_events. cbn. rewrite app_assoc. reflexivity. Qed.

Lemma emit_add_events e w : emit e w = add_events [e] w.
Proof. reflexivity. Qed.

Lemma add_events_nil w : add_events [] w = w.
Proof. destruct w. reflexivity. Qed.

(** X1. A chain made of [BaseExceptionPlugin], [LogExceptionPlugin] and
    [MultiplexExceptionPlugin] objects only, however they are nested and
    chained, returns [True] on every triple.  It does not raise, and all
    it does to the process is to report the very triple it was given, to
    the interpreter's hook or to the log. *)
Theorem stock_chain_continues rt p a w :
  stock p = true ->
  exists evs,
    call rt p a w = (Return (VBool true), add_events evs w)
    /\ Forall (is_report_of a) evs.
Proof.
  intros Hs. revert Hs w.
  induction p as [t IHt|elements t IHel IHt|t name level IHt
                 |t title msg _|h t _] using plugin_induction;
    intros Hs w; try discriminate Hs; cbn [stock] in Hs.
  - rewrite call_eq. cbn [handle _target]. unfold bind, Base_handle.
    cbn [truthy]. destruct t as [q|].
    + destruct (IHt q eq_refl Hs (emit (EvExcepthook a) w)) as (evs & E & F).
      exists (evs ++ [EvExcepthook a]). rewrite E, emit_add_events.
      rewrite add_events_add_events. split; [reflexivity|].
      apply Forall_app. split; [exact F|]. constructor; [left; reflexivity|constructor].
    + exists [EvExcepthook a]. split; [reflexivity|].
      constructor; [left; reflexivity|constructor].
  - apply andb_prop in Hs. destruct Hs as [Hel Ht].
    assert (L : forall w0, exists evs,
               Multiplex_loop (call rt) elements a w0
               = (Return (VBool true), add_events evs w0)
               /\ Forall (is_report_of a) evs).
    { clear Ht IHt. induction IHel as [|c elements Hc _ IH]; intros w0.
      - exists []. rewrite add_events_nil. split; [reflexivity|constructor].
      - cbn [forallb] in Hel. apply andb_prop in Hel. destruct Hel as [Hc' Hel].
        destruct (Hc Hc' w0) as (evs1 & E1 & F1).
        destruct (IH Hel (add_events evs1 w0)) as (evs2 & E2 & F2).
        exists (evs2 ++ evs1).
        rewrite Multiplex_loop_cons, E1. cbn [truthy].
        rewrite E2, add_events_add_events. split; [reflexivity|].
        apply Forall_app. split; assumption. }
    rewrite call_eq. cbn [handle _target]. unfold bind.
    destruct (L w) as (evs1 & E1 & F1). rewrite E1. cbn [truthy].
    destruct t as [q|].
    + destruct (IHt q eq_refl Ht (add_events evs1 w)) as (evs2 & E2 & F2).
      exists (evs2 ++ evs1). rewrite E2, add_events_add_events.
      split; [reflexivity|]. apply Forall_app. split; assumption.
    + exists evs1. split; [reflexivity|exact F1].
  - rewrite call_eq. cbn [handle _target]. unfold bind, Log_handle.
    cbn [truthy]. destruct t as [q|].
    + destruct (IHt q eq_refl Hs (emit (EvLog name level a) w)) as (evs & E & F).
      exists (evs ++ [EvLog name level a]). rewrite E, emit_add_events.
      rewrite add_events_add_events. split; [reflexivity|].
      apply Forall_app. split; [exact F|].
      constructor; [right; eauto|constructor].
    + exists [EvLog name level a]. split; [reflexivity|].
      constructor; [right; eauto|constructor].
Qed.

Lemma stock_chain_continues_witness :
  exists evs,
    call plain_runtime
      (MultiplexExceptionPlugin
         [LogExceptionPlugin None (Some "app"%string) CRITICAL;
          MultiplexExceptionPlugin [] (Some (BaseExceptionPlugin None))]
         (Some (LogExceptionPlugin None None CRITICAL)))
      key_error fresh_world
    = (Return (VBool true), add_events evs fresh_world)
    /\ Forall (is_report_of key_error) evs.
Proof.
  apply (stock_chain_continues plain_runtime
           (MultiplexExceptionPlugin
              [LogExceptionPlugin None (Some "app"%string) CRITICAL;
               MultiplexExceptionPlugin [] (Some (BaseExceptionPlugin None))]
              (Some (LogExceptionPlugin None None CRITICAL)))
           key_error fresh_world).
  reflexivity.
Defined.

(** X2. Splitting the children of a multiplex plugin in two: the [handle]
    of the whole is the [handle] of the first part and, when that returned
    [True], the [handle] of the second part in the state the first part
    left; when the first part returned [False] or raised, so does the
    whole, the second part not being called. *)
Theorem multiplex_handle_append rt l1 l2 t a w :
  handle rt (MultiplexExceptionPlugin (l1 ++ l2) t) a w =
  match handle rt (MultiplexExceptionPlugin l1 t) a w with
  | (Return (VBool true), w1) => handle rt (MultiplexExceptionPlugin l2 t) a w1
  | r => r
  end.
Proof.
  cbn [handle]. rewrite Multiplex_loop_append.
  destruct (Multiplex_loop (call rt) l1 a w) as [[v|e] w1] eqn:E; [|reflexivity].
  destruct (Multiplex_loop_bool rt a l1 w v w1 E) as [[|] ->]; reflexivity.
Qed.

(** X3. A multiplex plugin without a target that sits among the children
    of another multiplex plugin can be replaced by its own children, in
    place: the outer [handle] returns the same and leaves the same
    state. *)
Theorem multiplex_handle_flatten rt pre inner post t a w :
  handle rt
    (MultiplexExceptionPlugin
       (pre ++ MultiplexExceptionPlugin inner None :: post) t) a w
  = handle rt (MultiplexExceptionPlugin (pre ++ inner ++ post) t) a w.
Proof.
  cbn [handle]. rewrite !(Multiplex_loop_append rt a pre).
  destruct (Multiplex_loop (call rt) pre a w) as [[v|e] w1]; [|reflexivity].
  destruct (truthy v); [|reflexivity].
  rewrite Multiplex_loop_cons, Multiplex_loop_append.
  rewrite call_eq. cbn [handle _target]. unfold bind.
  destruct (Multiplex_loop (call rt) inner a w1) as [[v1|e1] w2] eqn:E;
    [|reflexivity].
  destruct (Multiplex_loop_bool rt a inner w1 v1 w2 E) as [[|] ->]; reflexivity.
Qed.

(** X4. Chaining [q] behind a plugin as its target, and putting the
    plugin, without target, and [q] side by side in a multiplex plugin,
    come to the same: both runs leave the same state, both raise the same
    exception if one does, and what they return is truthy in the one case
    exactly when it is in the other. *)
Theorem target_or_sibling rt p q a w :
  same_verdict
    (call rt (with_target p (Some q)) a w)
    (call rt (MultiplexExceptionPlugin [with_target p None; q] None) a w).
Proof.
  assert (T1 : _target (with_target p (Some q)) = Some q) by (destruct p; reflexivity).
  assert (T0 : _target (with_target p None) = None) by (destruct p; reflexivity).
  rewrite (call_eq rt (with_target p (Some q))), T1.
  rewrite (call_eq rt (MultiplexExceptionPlugin _ _)).
  cbn [handle _target]. unfold bind at 2. rewrite Multiplex_loop_cons.
  rewrite (call_eq rt (with_target p None)), T0.
  unfold bind. rewrite !handle_with_target.
  destruct (handle rt p a w) as [[v|e] w1]; [|split; reflexivity].
  destruct (truthy v) eqn:Hv.
  - unfold ret. rewrite Hv. rewrite Multiplex_loop_cons.
    destruct (call rt q a w1) as [[v'|e'] w2]; [|split; reflexivity].
    destruct (truthy v') eqn:Hv'; cbn; rewrite ?Hv'; split; cbn; auto.
  - unfold ret. rewrite Hv. cbn. split; cbn; auto.
Qed.

(* ======================================================================== *)
(** * More on the registry *)

Section RegistryMore.

Variable rt : runtime.

(** What a lookup on [ErrorWidget] answers, in any state. *)
Lemma findErrorFormatter_ErrorWidget c w :
  fst (findErrorFormatter rt (ErrorWidget rt) c w) =
  match c with
  | Some k =>
      Return (if PyTango rt && existsb (String.eqb DevFailed) (mro rt k)
              then TangoErrorFormatterPlugin rt
              else BaseErrorFormatterPlugin rt)
  | None =>
      if PyTango rt then Raise TypeError
      else Return (BaseErrorFormatterPlugin rt)
  end.
Proof.
  unfold findErrorFormatter, ErrorWidget. cbn [getErrorFormatters].
  destruct (ErrorWidget_getErrorFormatters_fresh rt w) as (w1 & E & D & _).
  unfold bind. rewrite E. unfold items, lift. cbn [fst]. rewrite D.
  unfold iteration_order.
  destruct (PyTango rt), c as [k|];
    cbn [map sort_ranked insert_ranked find_in_items issubclass obind andb];
    try reflexivity.
  destruct (existsb (String.eqb DevFailed) (mro rt k)); reflexivity.
Qed.

Lemma registerErrorHandler_ErrorWidget_returns K F w :
  fst (registerErrorHandler (ErrorWidget rt) K F w) = Return tt.
Proof.
  unfold registerErrorHandler, ErrorWidget. cbn [getErrorFormatters].
  destruct (ErrorWidget_getErrorFormatters_fresh rt w) as (w1 & E & _).
  unfold bind. rewrite E. reflexivity.
Qed.

Lemma register_all_ErrorWidget_returns regs w :
  fst (register_all (ErrorWidget rt) regs w) = Return tt.
Proof.
  revert w. induction regs as [|[K F] regs IH]; intros w; [reflexivity|].
  cbn [register_all]. unfold bind.
  pose proof (registerErrorHandler_ErrorWidget_returns K F w) as R.
  destruct (registerErrorHandler (ErrorWidget rt) K F w) as [[[]|e] w1];
    [apply IH|discriminate R].
Qed.

End RegistryMore.

(** X5. What [ErrorWidget.findErrorFormatter] answers is settled by the
    class asked for and by whether PyTango can be imported, not by the
    state of the process.  For a class it is the Tango formatter when
    PyTango is there and the class inherits from [DevFailed], and the base
    formatter otherwise.  For [None] in place of a class it is the base
    formatter when PyTango is missing and a [TypeError] when it is
    there. *)
Theorem ErrorWidget_lookup_answer rt c w :
  fst (findErrorFormatter rt (ErrorWidget rt) c w) =
  match c with
  | Some k =>
      Return (if PyTango rt && existsb (String.eqb DevFailed) (mro rt k)
              then TangoErrorFormatterPlugin rt
              else BaseErrorFormatterPlugin rt)
  | None =>
      if PyTango rt then Raise TypeError
      else Return (BaseErrorFormatterPlugin rt)
  end.
Proof. apply findErrorFormatter_ErrorWidget. Qed.

(** X6. Whatever is registered on [ErrorWidget], and however often, each
    registration returns without an error and none of them changes what a
    lookup made afterwards answers. *)
Theorem ErrorWidget_registrations_are_lost rt regs c w :
  fst (register_all (ErrorWidget rt) regs w) = Return tt
  /\ fst (bind (register_all (ErrorWidget rt) regs)
            (fun _ => findErrorFormatter rt (ErrorWidget rt) c) w)
     = fst (findErrorFormatter rt (ErrorWidget rt) c w).
Proof.
  pose proof (register_all_ErrorWidget_returns rt regs w) as R.
  split; [exact R|].
  unfold bind.
  destruct (register_all (ErrorWidget rt) regs w) as [[[]|e] w1];
    [|discriminate R].
  rewrite !findErrorFormatter_ErrorWidget. reflexivity.
Qed.

(** C1, on the code.  Whatever formatter is registered on [ErrorWidget]
    for a class, the lookup of that class made next does not see it: it
    answers what it answers without any registration, the Tango formatter
    for a class under [DevFailed] where PyTango is there and the base
    formatter otherwise.  So a formatter [F] registered for [KeyError] is
    not the one found for [KeyError]. *)
Theorem registered_formatter_is_lost :
  (forall rt K F w,
     fst (bind (registerErrorHandler (ErrorWidget rt) K F)
            (fun _ => findErrorFormatter rt (ErrorWidget rt) (Some K)) w)
     = Return (if PyTango rt && existsb (String.eqb DevFailed) (mro rt K)
               then TangoErrorFormatterPlugin rt
               else BaseErrorFormatterPlugin rt))
  /\ (let F := user_formatter plain_runtime "F" in
      let found :=
        fst (bind (registerErrorHandler (ErrorWidget plain_runtime) "KeyError" F)
               (fun _ => findErrorFormatter plain_runtime
                           (ErrorWidget plain_runtime) (Some "KeyError"))
               fresh_world) in
      found = Return (BaseErrorFormatterPlugin plain_runtime)
      /\ found <> Return F).
Proof.
  assert (G : forall rt K F w,
             fst (bind (registerErrorHandler (ErrorWidget rt) K F)
                    (fun _ => findErrorFormatter rt (ErrorWidget rt) (Some K)) w)
             = Return (if PyTango rt && existsb (String.eqb DevFailed) (mro rt K)
                       then TangoErrorFormatterPlugin rt
                       else BaseErrorFormatterPlugin rt)).
  { intros rt K F w. unfold bind.
    pose proof (registerErrorHandler_ErrorWidget_returns rt K F w) as R.
    destruct (registerErrorHandler (ErrorWidget rt) K F w) as [[[]|e] w1];
      [|discriminate R].
    apply (findErrorFormatter_ErrorWidget rt (Some K)). }
  split; [exact G|].
  cbv zeta. rewrite (G plain_runtime). cbn [PyTango plain_runtime andb].
  split; [reflexivity|].
  intros E.
  apply (f_equal (fun o => match o with
                           | Return f => fmt_name f
                           | Raise _ => EmptyString
                           end)) in E.
  discriminate E.
Qed.

(** C5, on the code.  Two formatters registered on [ErrorWidget], one
    after the other, for two classes the queried class inherits from:
    the lookup made next finds neither, it answers what it answers
    without any registration.  So with [A] registered for [Exception]
    and then [B] for [KeyError], the lookup of [KeyError] does not
    return [A], the one registered first. *)
Theorem first_registered_ancestor_is_lost :
  (forall rt K1 F1 K2 F2 c w,
     fst (bind (registerErrorHandler (ErrorWidget rt) K1 F1)
            (fun _ =>
               bind (registerErrorHandler (ErrorWidget rt) K2 F2)
                 (fun _ => findErrorFormatter rt (ErrorWidget rt) (Some c))) w)
     = Return (if PyTango rt && existsb (String.eqb DevFailed) (mro rt c)
               then TangoErrorFormatterPlugin rt
               else BaseErrorFormatterPlugin rt))
  /\ (let A := user_formatter plain_runtime "A" in
      let B := user_formatter plain_runtime "B" in
      let found :=
        fst (bind (registerErrorHandler (ErrorWidget plain_runtime) "Exception" A)
               (fun _ =>
                  bind (registerErrorHandler (ErrorWidget plain_runtime) "KeyError" B)
                    (fun _ => findErrorFormatter plain_runtime
                                (ErrorWidget plain_runtime) (Some "KeyError")))
               fresh_world) in
      issubclass plain_runtime (Some "KeyError") "Exception" = Return true
      /\ issubclass plain_runtime (Some "KeyError") "KeyError" = Return true
      /\ found = Return (BaseErrorFormatterPlugin plain_runtime)
      /\ found <> Return A).
Proof.
  assert (G : forall rt K1 F1 K2 F2 c w,
             fst (bind (registerErrorHandler (ErrorWidget rt) K1 F1)
                    (fun _ =>
                       bind (registerErrorHandler (ErrorWidget rt) K2 F2)
                         (fun _ => findErrorFormatter rt (ErrorWidget rt) (Some c))) w)
             = Return (if PyTango rt && existsb (String.eqb DevFailed) (mro rt c)
                       then TangoErrorFormatterPlugin rt
                       else BaseErrorFormatterPlugin rt)).
  { intros rt K1 F1 K2 F2 c w. unfold bind.
    pose proof (registerErrorHandler_ErrorWidget_returns rt K1 F1 w) as R1.
    destruct (registerErrorHandler (ErrorWidget rt) K1 F1 w) as [[[]|e] w1];
      [|discriminate R1].
    pose proof (registerErrorHandler_ErrorWidget_returns rt K2 F2 w1) as R2.
    destruct (registerErrorHandler (ErrorWidget rt) K2 F2 w1) as [[[]|e] w2];
      [|discriminate R2].
    apply (findErrorFormatter_ErrorWidget rt (Some c)). }
  split; [exact G|].
  cbv zeta. rewrite (G plain_runtime). cbn [PyTango plain_runtime andb].
  split; [reflexivity|]. split; [reflexivity|]. split; [reflexivity|].
  intros E.
  apply (f_equal (fun o => match o with
                           | Return f => fmt_name f
                           | Raise _ => EmptyString
                           end)) in E.
  discriminate E.
Qed.

(* ======================================================================== *)
(** * More on the Tango formatter *)

Lemma string_app_assoc (s1 s2 s3 : string) :
  ((s1 ++ s2) ++ s3)%string = (s1 ++ s2 ++ s3)%string.
Proof.
  induction s1 as [|c s1 IH]; cbn; [reflexivity|]. rewrite IH. reflexivity.
Qed.

Lemma string_app_nil_r (s : string) : (s ++ EmptyString)%string = s.
Proof.
  induction s as [|c s IH]; cbn; [reflexivity|]. rewrite IH. reflexivity.
Qed.

Lemma join_cons (x : string) (xs : list string) :
  join (x :: xs) = (x ++ join xs)%string.
Proof.
  unfold join. destruct xs as [|y ys]; cbn.
  - rewrite string_app_nil_r. reflexivity.
  - reflexivity.
Qed.

(** The loop over the [DevError]s appends their blocks, in order. *)
Lemma Tango_detail_loop_blocks rt des html :
  forallb is_DevError des = true ->
  Tango_detail_loop rt des html
  = Return (html ++ join (map (Tango_block rt) des))%string.
Proof.
  revert html. induction des as [|o des IH]; intros html H.
  - cbn. rewrite string_app_nil_r. reflexivity.
  - cbn [forallb] in H. apply andb_prop in H. destruct H as [Ho H].
    destruct o as [s|n|origin reason desc]; try discriminate Ho.
    cbn [Tango_detail_loop map]. rewrite (IH _ H), join_cons.
    rewrite string_app_assoc. reflexivity.
Qed.

(** The loop stops with an [AttributeError] at the first member of
    [args] that is no [DevError]. *)
Lemma Tango_detail_loop_raises rt des html :
  forallb is_DevError des = false ->
  Tango_detail_loop rt des html = Raise AttributeError.
Proof.
  revert html. induction des as [|o des IH]; intros html H.
  - discriminate H.
  - destruct o as [s|n|origin reason desc]; try reflexivity.
    cbn [Tango_detail_loop]. apply IH. exact H.
Qed.

(** X8. The Tango formatter translates an error exactly when the error
    value is there and its [args] are a non-empty sequence of
    [DevError]s.  Without a value it raises [AttributeError], with empty
    [args] [IndexError], and with a member that is no [DevError]
    [AttributeError]. *)
Theorem Tango_translateError_domain rt ei :
  ((exists fields, translateError (TangoErrorFormatterPlugin rt) ei = Return fields)
   <-> exists v, err_value ei = Some v
                 /\ args v <> []
                 /\ forallb is_DevError (args v) = true)
  /\ (err_value ei = None ->
      translateError (TangoErrorFormatterPlugin rt) ei = Raise AttributeError)
  /\ (forall v, err_value ei = Some v -> args v = [] ->
      translateError (TangoErrorFormatterPlugin rt) ei = Raise IndexError)
  /\ (forall v, err_value ei = Some v -> args v <> [] ->
      forallb is_DevError (args v) = false ->
      translateError (TangoErrorFormatterPlugin rt) ei = Raise AttributeError).
Proof.
  unfold translateError. cbn [toTitle toErrorHtml toDetailedErrorHtml
    toOriginHtml TangoErrorFormatterPlugin].
  unfold Tango_toTitle, Tango_toErrorHtml, Tango_toDetailedErrorHtml,
    Tango_toOriginHtml.
  destruct (err_value ei) as [[des]|]; cbn [args obind].
  - destruct des as [|o des]; cbn [obind].
    + split; [split|split; [|split]].
      * intros (fields & E). discriminate E.
      * intros (v & E & N & _). injection E as <-. exfalso. apply N. reflexivity.
      * discriminate.
      * reflexivity.
      * intros v E N. injection E as <-. exfalso. apply N. reflexivity.
    + destruct (forallb is_DevError (o :: des)) eqn:F.
      * rewrite (Tango_detail_loop_blocks rt _ _ F).
        assert (Ho : is_DevError o = true).
        { cbn [forallb] in F. apply andb_prop in F. apply F. }
        destruct o as [s|n|origin reason desc]; try discriminate Ho.
        cbn [obind]. split; [split|split; [|split]].
        -- intros _. eexists. repeat split; [discriminate|exact F].
        -- intros _. eexists. reflexivity.
        -- discriminate.
        -- intros v E N. injection E as <-. discriminate N.
        -- intros v E _ F'. injection E as <-. cbn [args] in F'. congruence.
      * rewrite (Tango_detail_loop_raises rt _ _ F).
        split; [split|split; [|split]].
        -- intros (fields & E). destruct o; discriminate E.
        -- intros (v & E & _ & F'). injection E as <-. cbn [args] in F'. congruence.
        -- discriminate.
        -- intros v E N. injection E as <-. discriminate N.
        -- intros v E _ _. destruct o; reflexivity.
  - split; [split|split; [|split]].
    + intros (fields & E). discriminate E.
    + intros (v & E & _). discriminate E.
    + reflexivity.
    + discriminate.
    + discriminate.
Qed.

(** X9. For an error value whose [args] are all [DevError]s, the detail
    view of the Tango formatter is the page head with the style sheet,
    then one block for each [DevError], in the order of [args], then the
    page end. *)
Theorem Tango_detail_is_blocks rt ei v :
  err_value ei = Some v ->
  forallb is_DevError (args v) = true ->
  toDetailedErrorHtml (TangoErrorFormatterPlugin rt) ei
  = Return (html_orig (match pygments rt with
                       | Some pg => get_style_defs pg
                       | None => EmptyString
                       end)
            ++ join (map (Tango_block rt) (args v))
            ++ "</body></html>")%string.
Proof.
  intros E F. cbn [toDetailedErrorHtml TangoErrorFormatterPlugin].
  unfold Tango_toDetailedErrorHtml. rewrite E.
  rewrite (Tango_detail_loop_blocks rt _ _ F). cbn [obind].
  rewrite string_app_assoc. reflexivity.
Qed.

Lemma Tango_detail_is_blocks_witness :
  let causes :=
    [ODevError "dev.py line 3" "PyDs_Exception" "first";
     ODevError "device server" "API_Timeout" "second"]%string in
  toDetailedErrorHtml (TangoErrorFormatterPlugin plain_runtime)
    (mkExcInfo (Some DevFailed) (Some (mkException causes)) None)
  = Return (html_orig EmptyString
            ++ join (map (Tango_block plain_runtime) causes)
            ++ "</body></html>")%string.
Proof.
  exact (Tango_detail_is_blocks plain_runtime
           (mkExcInfo (Some DevFailed)
              (Some (mkException
                       [ODevError "dev.py line 3" "PyDs_Exception" "first";
                        ODevError "device server" "API_Timeout" "second"]%string))
              None)
           _ eq_refl eq_refl).
Defined.

(* ======================================================================== *)
(** * More on the dialog plugin *)

Section DialogMore.

Variable rt : runtime.

Lemma ErrorWidget_setError_checkBoxState self a w r self' w1 :
  ErrorWidget_setError rt self a w = (r, self', w1) ->
  checkBoxState self' = checkBoxState self.
Proof.
  unfold ErrorWidget_setError.
  destruct (findErrorFormatter rt (ErrorWidget rt) _ w) as [[f|e] w2].
  - destruct (translateError f _) as [[[[ti er] de] og]|e'];
      intros H; injection H as _ <- _; reflexivity.
  - intros H; injection H as _ <- _; reflexivity.
Qed.

(** [_getMessageBox] on a process that has its dialog already: the
    dialog stays, and so does the state of its check box. *)
Lemma getMessageBox_keeps_box a w box r w1 :
  MSG_BOX w = Some box ->
  _getMessageBox rt a w = (r, w1) ->
  exists box', MSG_BOX w1 = Some box'
               /\ checkBoxState box' = checkBoxState box
               /\ match r with
                  | Return (Some b) => b = box'
                  | _ => True
                  end.
Proof.
  intros Hb. unfold _getMessageBox, bind. rewrite Hb.
  unfold ErrorDialog_setError.
  destruct (ErrorWidget_setError rt box a w) as [[[u|e] box'] w2] eqn:S;
    apply ErrorWidget_setError_checkBoxState in S.
  - destruct (CheckState_eqb _ Checked); unfold ret;
      intros H; injection H as <- <-; eexists;
      (split; [reflexivity|]); (split; [exact S|reflexivity]).
  - intros H; injection H as <- <-. eexists.
    split; [reflexivity|]. split; [exact S|exact I].
Qed.

(** One error, with the check box of the kept dialog ticked. *)
Lemma ticked_call_is_silent t title msg a w box r w1 :
  MSG_BOX w = Some box ->
  checkBoxState box = Checked ->
  call rt (MessageDialogExceptionPlugin t title msg) a w = (r, w1) ->
  events w1 = events w
  /\ (r = Return VNone \/ exists e, r = Raise e)
  /\ exists box', MSG_BOX w1 = Some box' /\ checkBoxState box' = Checked.
Proof.
  intros Hb Hc. rewrite call_eq. cbn [handle _target].
  unfold MessageDialog_handle, Application. unfold bind at 1 2 3.
  destruct (_getMessageBox rt a (set_qapp w true)) as [[[b|]|e] w2] eqn:G.
  - pose proof (getMessageBox_events rt _ _ _ _ G) as [_ [_ N]].
    destruct (getMessageBox_keeps_box a (set_qapp w true) box _ _ Hb G)
      as (box' & _ & C & ->).
    exfalso. apply N. rewrite C. exact Hc.
  - pose proof (getMessageBox_events rt _ _ _ _ G) as [Ev _].
    destruct (getMessageBox_keeps_box a (set_qapp w true) box _ _ Hb G)
      as (box' & B & C & _).
    unfold ret. cbn [truthy]. intros H; injection H as <- <-.
    split; [exact Ev|]. split; [left; reflexivity|].
    exists box'. split; [exact B|]. rewrite C. exact Hc.
  - pose proof (getMessageBox_events rt _ _ _ _ G) as [Ev _].
    destruct (getMessageBox_keeps_box a (set_qapp w true) box _ _ Hb G)
      as (box' & B & C & _).
    intros H; injection H as <- <-.
    split; [exact Ev|]. split; [right; eauto|].
    exists box'. split; [exact B|]. rewrite C. exact Hc.
Qed.

End DialogMore.

(** X10. The dialog plugin never makes or drops its dialog once it has
    one, and never touches the dialog's check box: after [handle], however
    it ends, the process has a dialog whose check box is in the state it
    was in before. *)
Theorem dialog_plugin_keeps_check_box rt t title msg a w box r w1 :
  MSG_BOX w = Some box ->
  handle rt (MessageDialogExceptionPlugin t title msg) a w = (r, w1) ->
  exists box', MSG_BOX w1 = Some box'
               /\ checkBoxState box' = checkBoxState box.
Proof.
  intros Hb. cbn [handle]. unfold MessageDialog_handle, Application, bind.
  destruct (_getMessageBox rt a (set_qapp w true)) as [[[b|]|e] w2] eqn:G;
    destruct (getMessageBox_keeps_box rt a (set_qapp w true) box _ _ Hb G)
      as (box' & B & C & Eb).
  - subst b. unfold show_box, ret. intros H; injection H as _ <-.
    eexists. split; [reflexivity|].
    rewrite <- C. destruct title, msg; reflexivity.
  - unfold ret. intros H; injection H as _ <-. eauto.
  - intros H; injection H as _ <-. eauto.
Qed.

Lemma dialog_plugin_keeps_check_box_witness :
  exists box',
    MSG_BOX (snd (handle plain_runtime
                    (MessageDialogExceptionPlugin None (Some "Oops"%string) None)
                    key_error ticked_world)) = Some box'
    /\ checkBoxState box' = Checked.
Proof.
  exact (dialog_plugin_keeps_check_box plain_runtime None (Some "Oops"%string)
           None key_error ticked_world ticked_box _ _ eq_refl
           (surjective_pairing _)).
Defined.

(** X11. Once the check box of the kept dialog is ticked, the dialog
    plugin is silent for good: over any run of uncaught errors it shows
    nothing, and whatever is chained behind it as its target is not called
    either, so that no action at all comes out of the chain; the box stays
    ticked. *)
Theorem ticked_dialog_plugin_stays_silent rt t title msg errors w box :
  MSG_BOX w = Some box ->
  checkBoxState box = Checked ->
  let w' := dispatch_all rt (MessageDialogExceptionPlugin t title msg) errors w in
  events w' = events w
  /\ exists box', MSG_BOX w' = Some box' /\ checkBoxState box' = Checked.
Proof.
  intros Hb Hc. cbv zeta. revert w box Hb Hc.
  induction errors as [|a errors IH]; intros w box Hb Hc.
  - cbn. eauto.
  - cbn [dispatch_all fold_left].
    destruct (call rt (MessageDialogExceptionPlugin t title msg) a w)
      as [r w1] eqn:E.
    destruct (ticked_call_is_silent rt t title msg a w box r w1 Hb Hc E)
      as (Ev & _ & box1 & B1 & C1).
    cbn [snd]. fold (dispatch_all rt (MessageDialogExceptionPlugin t title msg) errors w1).
    destruct (IH w1 box1 B1 C1) as (Ev' & box2 & B2 & C2).
    split; [congruence|eauto].
Qed.

Lemma ticked_dialog_plugin_stays_silent_witness :
  events (dispatch_all plain_runtime
            (MessageDialogExceptionPlugin (Some (BaseExceptionPlugin None)) None None)
            [key_error; no_exc_info; key_error] ticked_world)
  = [].
Proof.
  exact (proj1 (ticked_dialog_plugin_stays_silent plain_runtime
                  (Some (BaseExceptionPlugin None)) None None
                  [key_error; no_exc_info; key_error] ticked_world ticked_box
                  eq_refl eq_refl)).
Defined.

(** The base formatter translates every triple. *)
Lemma Base_translateError_returns rt ei :
  exists title error detailed_error origin,
    translateError (BaseErrorFormatterPlugin rt) ei
    = Return (title, error, detailed_error, origin)
    /\ Base_toTitle ei = Return title
    /\ Base_toErrorHtml rt ei = Return error.
Proof.
  unfold translateError.
  cbn [toTitle toErrorHtml toDetailedErrorHtml toOriginHtml
       BaseErrorFormatterPlugin].
  unfold Base_toDetailedErrorHtml, Base_toErrorHtml, Base_toOriginHtml,
    Base_toTitle.
  destruct (err_type ei); cbn [obind]; do 4 eexists;
    (split; [reflexivity|split; reflexivity]).
Qed.

(** Without PyTango the widget renders every error with the base
    formatter, and does not raise. *)
Lemma ErrorWidget_setError_without_PyTango rt self a w :
  PyTango rt = false ->
  let i := sys_exc_info w in
  let ei := mkExcInfo (por (err_type a) (err_type i))
                      (por (err_value a) (err_value i))
                      (por (err_traceback a) (err_traceback i)) in
  exists w1 title error detailed_error origin,
    ErrorWidget_setError rt self a w
    = (Return tt,
       set_rendered (set_error_fields self ei) title error detailed_error origin,
       w1)
    /\ events w1 = events w
    /\ Base_toTitle ei = Return title
    /\ Base_toErrorHtml rt ei = Return error.
Proof.
  intros HT. cbv zeta. unfold ErrorWidget_setError.
  set (ei := mkExcInfo _ _ _).
  pose proof (findErrorFormatter_ErrorWidget rt (err_type ei) w) as F.
  pose proof (findErrorFormatter_events rt (err_type ei) w) as Ev.
  destruct (findErrorFormatter rt (ErrorWidget rt) (err_type ei) w) as [r w1].
  specialize (Ev r w1 eq_refl). cbn [fst] in F. rewrite HT in F.
  assert (R : r = Return (BaseErrorFormatterPlugin rt)).
  { rewrite F. destruct (err_type ei); reflexivity. }
  rewrite R.
  destruct (Base_translateError_returns rt ei)
    as (title & error & detailed_error & origin & T & Ht & He).
  rewrite T. exists w1, title, error, detailed_error, origin.
  repeat split; assumption.
Qed.

Lemma CheckState_eqb_Checked_false s :
  s <> Checked -> CheckState_eqb s Checked = false.
Proof. destruct s; intros H; try reflexivity. exfalso. apply H. reflexivity. Qed.

(** X12. Where PyTango cannot be imported, an error that comes with its
    class and its value is always shown by the dialog plugin, provided the
    check box of a dialog kept from before is not ticked: [handle] returns
    [True] and does not raise, and the dialog shown has the plugin's title
    or else ["Unhandled Error (<class>)"], and the plugin's message or else
    the last line of the traceback. *)
Theorem dialog_plugin_shows_base_fields rt t title msg a c v w :
  PyTango rt = false ->
  err_type a = Some c ->
  err_value a = Some v ->
  (forall box, MSG_BOX w = Some box -> checkBoxState box <> Checked) ->
  exists w1,
    handle rt (MessageDialogExceptionPlugin t title msg) a w
    = (Return (VBool true), w1)
    /\ events w1 =
       EvShow
         (match title with
          | Some x => x
          | None => "Unhandled Error (" ++ c ++ ")"
          end)%string
         (match msg with
          | Some m => m
          | None => join (format_exception_only rt (Some c) (Some v))
          end)
       :: events w.
Proof.
  intros HT Hc Hv Hbox.
  cbn [handle]. unfold MessageDialog_handle, Application, bind.
  unfold _getMessageBox, bind. cbn [MSG_BOX set_qapp].
  destruct (MSG_BOX w) as [box|] eqn:Hb.
  - unfold ErrorDialog_setError.
    destruct (ErrorWidget_setError_without_PyTango rt box a (set_qapp w true) HT)
      as (w1 & ti & er & de & og & E & Ev & Ti & Er).
    rewrite E. cbn [checkBoxState setWindowTitle set_rendered set_error_fields].
    rewrite (CheckState_eqb_Checked_false _ (Hbox box eq_refl)).
    unfold ret, show_box. eexists. split; [reflexivity|].
    cbn [events emit set_MSG_BOX]. rewrite Ev. cbn [events set_qapp].
    rewrite Hc, Hv in Ti, Er. cbn in Ti, Er.
    unfold Base_toTitle in Ti. unfold Base_toErrorHtml in Er. cbn in Ti, Er.
    injection Ti as <-. injection Er as <-.
    destruct title, msg; reflexivity.
  - unfold new_ErrorDialog.
    assert (N : all_None a = false) by (unfold all_None; rewrite Hc; reflexivity).
    rewrite N, Hv.
    match goal with
    | |- context [ErrorWidget_setError rt ?panel a ?w0] =>
        destruct (ErrorWidget_setError_without_PyTango rt panel a w0 HT)
          as (w1 & ti & er & de & og & E & Ev & Ti & Er)
    end.
    rewrite E. cbn [checkBoxState setWindowTitle setModal set_rendered
                    set_error_fields CheckState_eqb].
    unfold ret, show_box. eexists. split; [reflexivity|].
    cbn [events emit set_MSG_BOX]. rewrite Ev. cbn [events set_qapp].
    rewrite Hc, Hv in Ti, Er. cbn in Ti, Er.
    unfold Base_toTitle in Ti. unfold Base_toErrorHtml in Er. cbn in Ti, Er.
    injection Ti as <-. injection Er as <-.
    destruct title, msg; reflexivity.
Qed.

Lemma dialog_plugin_shows_base_fields_witness :
  exists w1,
    handle plain_runtime
      (MessageDialogExceptionPlugin None None (Some "Beam lost"%string))
      key_error fresh_world
    = (Return (VBool true), w1)
    /\ events w1 =
       [EvShow "Unhandled Error (KeyError)"%string "Beam lost"%string].
Proof.
  apply (dialog_plugin_shows_base_fields plain_runtime None None
           (Some "Beam lost"%string) key_error "KeyError"%string
           (mkException [OStr "beam"]) fresh_world);
    try reflexivity.
  intros box E. discriminate E.
Defined.

(* ======================================================================== *)
(** * protect *)

Lemma ErrorDialog_setError_events rt self a w r self' w1 :
  ErrorDialog_setError rt self a w = (r, self', w1) ->
  events w1 = events w /\ checkBoxState self' = checkBoxState self.
Proof.
  unfold ErrorDialog_setError.
  destruct (ErrorWidget_setError rt self a w) as [[[u|e] box'] w2] eqn:S;
    pose proof (ErrorWidget_setError_events rt _ _ _ _ _ _ S) as Ev;
    apply ErrorWidget_setError_checkBoxState in S;
    intros H; injection H as _ <- <-; split; assumption.
Qed.

(** X13. With [re_throw] off, the exception of the protected function
    never leaves the wrapper: when the wrapper raises, the function had
    raised and it is building or updating the dialog that raised in turn,
    and the wrapper raises that second exception. *)
Theorem protect_absorbs rt title msg async user obj pw e' pw' :
  protect_wrapper rt title msg async false user obj pw = (Raise e', pw') ->
  exists e w1,
    obj (process pw) = (Raise e, w1)
    /\ fst (_ProtectErrorDialog rt (sys_exc_info w1)
              (mkProtectWorld w1 (PROTECT_ERROR_DIALOG pw))) = Raise e'.
Proof.
  unfold protect_wrapper.
  destruct (obj (process pw)) as [[v|e] w1]; [discriminate|].
  destruct (_ProtectErrorDialog rt (sys_exc_info w1) _)
    as [[[box|]|e2] pw2] eqn:P;
    intros H; cbv zeta in H; try discriminate H.
  injection H as <- _. exists e, w1. rewrite P. split; reflexivity.
Qed.

Lemma protect_absorbs_witness :
  exists e w1,
    read_attribute fresh_world = (Raise e, w1)
    /\ fst (_ProtectErrorDialog tango_runtime (sys_exc_info w1)
              (mkProtectWorld w1 None)) = Raise IndexError.
Proof.
  exact (protect_absorbs tango_runtime None None false (fun box => box)
           read_attribute (mkProtectWorld fresh_world None) IndexError _
           eq_refl).
Defined.

(** X15. With the check box of the kept dialog ticked, a protected
    function that raises is silenced altogether: when the dialog takes the
    new error without a fault of its own, nothing is shown and the wrapper
    returns [None], also with [re_throw] on. *)
Theorem protect_ticked_swallows
    rt title msg async re_throw user obj pw box e w1 :
  PROTECT_ERROR_DIALOG pw = Some box ->
  checkBoxState box = Checked ->
  obj (process pw) = (Raise e, w1) ->
  fst (fst (ErrorDialog_setError rt box (sys_exc_info w1) w1)) = Return tt ->
  exists pw',
    protect_wrapper rt title msg async re_throw user obj pw = (Return VNone, pw')
    /\ events (process pw') = events w1.
Proof.
  intros Hb Hc Ho Hs. unfold protect_wrapper, _ProtectErrorDialog.
  rewrite Ho. cbn [PROTECT_ERROR_DIALOG process]. rewrite Hb.
  destruct (ErrorDialog_setError rt box (sys_exc_info w1) w1)
    as [[r box'] w2] eqn:S.
  cbn [fst] in Hs. subst r.
  apply ErrorDialog_setError_events in S. destruct S as [Ev C].
  rewrite C, Hc. cbn [CheckState_eqb].
  eexists. split; [reflexivity|]. exact Ev.
Qed.

Lemma protect_ticked_swallows_witness :
  exists pw',
    protect_wrapper plain_runtime None None false true (fun box => box)
      turnBeamOn (mkProtectWorld fresh_world (Some ticked_box))
    = (Return VNone, pw')
    /\ events (process pw') = [].
Proof.
  exact (protect_ticked_swallows plain_runtime None None false true
           (fun box => box) turnBeamOn
           (mkProtectWorld fresh_world (Some ticked_box)) ticked_box
           (OtherError "Exception") (set_sys_exc_info fresh_world beam_error)
           eq_refl eq_refl eq_refl eq_refl).
Defined.

(* ======================================================================== *)
(** * Application *)

Lemma Application_full_existing cfg argv kwargs st app :
  instance st = Some app ->
  fst (Application_full cfg argv kwargs st) = app
  /\ instance (snd (Application_full cfg argv kwargs st)) = Some app.
Proof.
  intros H. unfold Application_full.
  destruct (truthy (kwargs_get (init_logging kwargs) (VBool false)));
    cbn [instance]; rewrite H; destruct argv as [[|x l]|]; cbn; auto.
Qed.

Lemma Application_full_instance cfg argv kwargs st :
  instance (snd (Application_full cfg argv kwargs st))
  = Some (fst (Application_full cfg argv kwargs st)).
Proof.
  unfold Application_full.
  destruct (truthy (kwargs_get (init_logging kwargs) (VBool false)));
    cbn [instance]; destruct (instance st) as [app|] eqn:H;
    try (destruct argv as [[|x l]|]; cbn; auto); reflexivity.
Qed.

(** X16. [Application] always hands out the one [QApplication] of the
    process: the call leaves an instance behind and returns it, and once
    there is an instance every further call, whatever its [argv] and
    keywords, returns that instance and leaves it as it is, so that the
    names set up by the first call stay. *)
Theorem Application_first_call_settles cfg argv kwargs calls st :
  let app := fst (Application_full cfg argv kwargs st) in
  let st1 := snd (Application_full cfg argv kwargs st) in
  instance st1 = Some app
  /\ instance (Application_calls cfg calls st1) = Some app
  /\ (forall argv' kwargs',
        fst (Application_full cfg argv' kwargs' (Application_calls cfg calls st1))
        = app).
Proof.
  cbv zeta.
  pose proof (Application_full_instance cfg argv kwargs st) as H.
  set (app := fst (Application_full cfg argv kwargs st)) in *.
  set (st1 := snd (Application_full cfg argv kwargs st)) in *.
  assert (K : instance (Application_calls cfg calls st1) = Some app).
  { clearbody st1. revert st1 H.
    induction calls as [|[argv' kwargs'] calls IH]; intros st1 H; [exact H|].
    cbn [Application_calls fold_left fst snd].
    apply IH. apply Application_full_existing. exact H. }
  split; [exact H|]. split; [exact K|].
  intros argv' kwargs'. apply Application_full_existing. exact K.
Qed.
